(** * Inventory ledger and projection engine

    A shallow embedding of the ledger helpers and the projection functions of
    [canva_embeddable_restaurant_inventory_app_react.jsx]
    ([addTransaction], [createTransfer], [saveAll], [updateItem],
    [removeItem], [calcDailyRecord], [avgUsageForItem], [suggestedOrderQty],
    [getCurrentStock] and the usage report of [ReportsView]).

    Conventions of the embedding.
    - Numbers.  The ledger helpers, the daily record, the usage history and
      the period report are embedded on exact rationals ([Q]): they add and
      compare quantities, and their theorems say which transactions are
      recorded and counted.  The three projections that round or divide,
      [getCurrentStock], [avgUsageForItem] and [suggestedOrderQty], are
      embedded a second time on IEEE-754 binary64 (module [Binary64]), the
      numbers of the source bit for bit; what depends on rounding, on the
      order of the additions, on NaN or on the result of [Math.ceil] is
      stated there.  Their reading on [Q] serves the properties that do not
      depend on the arithmetic: which transactions count, monotonicity and
      sign.  On [Q] the division of [avgUsageForItem] returns [option Q],
      [None] for a quotient that is not finite.
    - Dates.  A time value is an integer number of milliseconds.  Parsing
      and the local year and month belong to the host ([DateRuntime]), and
      so does the date [setDate] reaches ([Calendar]); the reading on [Q]
      counts 86400000 ms for each day.
    - An object property that may be absent is an [option]; [===] between
      such a property and a string is [strict_eq].
    - The component state [db] is an explicit record; the state updaters
      passed to [setDb] are functions [DB -> DB].
    - [Math.random], [new Date()] and [alert] are explicit: the random
      strings and the clock are read from the [World], alerts are logged
      in it. *)

From Stdlib Require Import ZArith QArith Qround Qminmax Lqa Lia.
From Stdlib Require Import List String Ascii Bool Permutation Sorted.
From Stdlib Require Import Morphisms Setoid.
From Stdlib Require Import Floats.

Set Warnings "-inexact-float".
Import ListNotations.

Open Scope string_scope.
Open Scope list_scope.
Open Scope Q_scope.

(** ** JavaScript primitives used by the source *)

Module JS.

(** [field === s] where [field] is a possibly absent string property. *)
Definition strict_eq (field : option string) (s : string) : bool :=
  match field with
  | Some x => String.eqb x s
  | None => false
  end.

(** [s.slice(a, b)] for [0 <= a <= b]. *)
Definition slice (s : string) (a b : nat) : string :=
  substring a (b - a) s.

(** [Math.round]: the nearest integer, ties towards +infinity. *)
Definition Math_round (x : Q) : Q := inject_Z (Qfloor (x + (1 # 2))).

Definition Math_ceil (x : Q) : Z := Qceiling x.

Definition Math_max (a b : Q) : Q := if Qle_bool a b then b else a.

(** [a / b] on finite numbers; [None] when the quotient is not finite. *)
Definition div (a b : Q) : option Q :=
  if Qeq_bool b 0 then None else Some (a / b).

(** [x || d] for a number property that may be absent: absent and [0]
    are both falsy. *)
Definition num_or (x : option Q) (d : Q) : Q :=
  match x with
  | Some v => if Qeq_bool v 0 then d else v
  | None => d
  end.

(** [x != null ? x : d]. *)
Definition non_null_or (x : option Q) (d : Q) : Q :=
  match x with
  | Some v => v
  | None => d
  end.

End JS.

Infix "===" := JS.strict_eq (at level 70, no associativity).

(** ** The [Date] runtime

    [Date_parse s] is the time value of [new Date(s)] in milliseconds since
    the epoch, [None] for an invalid date; [getFullYear] and [getMonth] read
    a time value in the local time zone of the host. *)

Class DateRuntime := {
  Date_parse : string -> option Z;
  getFullYear : Z -> Z;
  getMonth : Z -> Z
}.

Module IsoDate.

Definition digit (c : ascii) : option Z :=
  let n := nat_of_ascii c in
  if (48 <=? n)%nat && (n <=? 57)%nat then Some (Z.of_nat (n - 48)) else None.

Fixpoint digits (s : string) (acc : Z) : option Z :=
  match s with
  | EmptyString => Some acc
  | String c s' =>
      match digit c with
      | Some d => digits s' (acc * 10 + d)%Z
      | None => None
      end
  end.

Definition number_at (s : string) (start len : nat) : option Z :=
  let sub := substring start len s in
  if (String.length sub =? len)%nat then digits sub 0%Z else None.

Definition char_at (s : string) (n : nat) (c : string) : bool :=
  String.eqb (substring n 1 s) c.

(** Days since 1970-01-01 of a proleptic Gregorian date. *)
Definition days_from_civil (y m d : Z) : Z :=
  let y' := (if m <=? 2 then y - 1 else y)%Z in
  let era := (y' / 400)%Z in
  let yoe := (y' - era * 400)%Z in
  let mp := ((m + 9) mod 12)%Z in
  let doy := ((153 * mp + 2) / 5 + d - 1)%Z in
  let doe := (yoe * 365 + yoe / 4 - yoe / 100 + doy)%Z in
  (era * 146097 + doe - 719468)%Z.

(** Year and month (1..12) of a day count. *)
Definition civil_from_days (z : Z) : Z * Z :=
  let z' := (z + 719468)%Z in
  let era := (z' / 146097)%Z in
  let doe := (z' - era * 146097)%Z in
  let yoe := ((doe - doe / 1460 + doe / 36524 - doe / 146096) / 365)%Z in
  let doy := (doe - (365 * yoe + yoe / 4 - yoe / 100))%Z in
  let mp := ((5 * doy + 2) / 153)%Z in
  let m := (if mp <? 10 then mp + 3 else mp - 9)%Z in
  let y := (yoe + era * 400)%Z in
  ((if m <=? 2 then y + 1 else y)%Z, m).

Definition msPerDay : Z := 86400000.

Definition in_range (lo x hi : Z) : bool := ((lo <=? x) && (x <=? hi))%Z.

(** The format written by [toISOString], [YYYY-MM-DDTHH:mm:ss.sssZ], and
    the date-only form [YYYY-MM-DD] (midnight UTC). *)
Definition parse (s : string) : option Z :=
  match number_at s 0 4, number_at s 5 2, number_at s 8 2 with
  | Some y, Some m, Some d =>
      if negb (char_at s 4 "-" && char_at s 7 "-"
               && in_range 1 m 12 && in_range 1 d 31) then None
      else if (String.length s =? 10)%nat then
        Some (days_from_civil y m d * msPerDay)%Z
      else if negb ((String.length s =? 24)%nat && char_at s 10 "T"
                    && char_at s 13 ":" && char_at s 16 ":"
                    && char_at s 19 "." && char_at s 23 "Z") then None
      else
        match number_at s 11 2, number_at s 14 2,
              number_at s 17 2, number_at s 20 3 with
        | Some hh, Some mm, Some ss, Some ms =>
            if in_range 0 hh 23 && in_range 0 mm 59 && in_range 0 ss 59 then
              Some (days_from_civil y m d * msPerDay
                    + hh * 3600000 + mm * 60000 + ss * 1000 + ms)%Z
            else None
        | _, _, _, _ => None
        end
  | _, _, _ => None
  end.

(** A host whose local time is UTC plus a fixed number of minutes. *)
Definition runtime (offsetMinutes : Z) : DateRuntime := {|
  Date_parse := parse;
  getFullYear := fun t =>
    fst (civil_from_days ((t + offsetMinutes * 60000) / msPerDay)%Z);
  getMonth := fun t =>
    (snd (civil_from_days ((t + offsetMinutes * 60000) / msPerDay)%Z) - 1)%Z
|}.

Definition utc : DateRuntime := runtime 0.

End IsoDate.

(** ** Data model *)

Record Branch := {
  b_id : string;
  b_name : string
}.

Record Item := {
  it_id : string;
  it_name : string;
  it_category : string;
  it_unit : string;
  it_minStock : Q;
  it_preferredOrder : Q;
  it_leadTime : option Q;
  it_unitCost : option Q;
  it_storage : string
}.

(** A transaction as stored in [db.transactions]; [branchId] is present on
    receive, use and wastage records, [branchFrom] and [branchTo] on
    transfers. *)
Record Transaction := {
  t_id : string;
  t_type : string;
  t_itemId : string;
  t_qty : Q;
  t_date : string;
  t_notes : string;
  t_branchId : option string;
  t_branchFrom : option string;
  t_branchTo : option string
}.

Record DB := {
  branches : list Branch;
  items : list Item;
  transactions : list Transaction
}.

Definition defaultBranches : list Branch :=
  [ {| b_id := "b_hq"; b_name := "Head Office" |};
    {| b_id := "b_1"; b_name := "Branch 1" |};
    {| b_id := "b_2"; b_name := "Branch 2" |} ].

Definition defaultItems : list Item :=
  [ {| it_id := "i_veg_tom"; it_name := "Tomato"; it_category := "Vegetable";
       it_unit := "kg"; it_minStock := 10; it_preferredOrder := 20;
       it_leadTime := Some 2; it_unitCost := Some 30;
       it_storage := "Cold Room" |};
    {| it_id := "i_meat_pork"; it_name := "Pork (raw)";
       it_category := "Raw Meat"; it_unit := "kg"; it_minStock := 15;
       it_preferredOrder := 30; it_leadTime := Some 3;
       it_unitCost := Some 150; it_storage := "Fridge" |};
    {| it_id := "i_sea_shrimp"; it_name := "Shrimp"; it_category := "Seafood";
       it_unit := "kg"; it_minStock := 8; it_preferredOrder := 16;
       it_leadTime := Some 2; it_unitCost := Some 200;
       it_storage := "Freezer" |} ].

Definition initialState : DB := {|
  branches := defaultBranches;
  items := defaultItems;
  transactions := []
|}.

(** ** Stock calculation *)

(** The body of the [forEach] of [getCurrentStock]. *)
Definition stockStep (branchIdArg itemIdArg : string)
    (stock : Q) (t : Transaction) : Q :=
  if negb (String.eqb (t_itemId t) itemIdArg) then stock
  else
    let stock :=
      if String.eqb (t_type t) "receive" && (t_branchId t === branchIdArg)
      then stock + t_qty t else stock in
    let stock :=
      if String.eqb (t_type t) "transfer" && (t_branchTo t === branchIdArg)
      then stock + t_qty t else stock in
    let stock :=
      if String.eqb (t_type t) "use" && (t_branchId t === branchIdArg)
      then stock - t_qty t else stock in
    let stock :=
      if String.eqb (t_type t) "wastage" && (t_branchId t === branchIdArg)
      then stock - t_qty t else stock in
    let stock :=
      if String.eqb (t_type t) "transfer" && (t_branchFrom t === branchIdArg)
      then stock - t_qty t else stock in
    stock.

(** The value of [stock] when the loop of [getCurrentStock] ends. *)
Definition stockTotal (txs : list Transaction)
    (branchIdArg itemIdArg : string) : Q :=
  fold_left (stockStep branchIdArg itemIdArg) txs 0.

Definition getCurrentStock (db : DB) (branchIdArg itemIdArg : string) : Q :=
  JS.Math_max 0
    (JS.Math_round (stockTotal (transactions db) branchIdArg itemIdArg * 100)
     / 100).

(** The five running totals of [calcDailyRecord]. *)
Record Movements := {
  m_received : Q;
  m_transferIn : Q;
  m_transferOut : Q;
  m_used : Q;
  m_wastage : Q
}.

Record DailyRecord := {
  start : Q;
  received : Q;
  transferIn : Q;
  transferOut : Q;
  used : Q;
  wastage : Q;
  end_ : Q
}.

(** The body of the [forEach] of [calcDailyRecord]. *)
Definition dailyStep (branchId : string) (m : Movements) (t : Transaction)
    : Movements :=
  let m :=
    if String.eqb (t_type t) "receive" && (t_branchId t === branchId)
    then {| m_received := m_received m + t_qty t;
            m_transferIn := m_transferIn m; m_transferOut := m_transferOut m;
            m_used := m_used m; m_wastage := m_wastage m |} else m in
  let m :=
    if String.eqb (t_type t) "transfer" && (t_branchFrom t === branchId)
    then {| m_received := m_received m; m_transferIn := m_transferIn m;
            m_transferOut := m_transferOut m + t_qty t;
            m_used := m_used m; m_wastage := m_wastage m |} else m in
  let m :=
    if String.eqb (t_type t) "transfer" && (t_branchTo t === branchId)
    then {| m_received := m_received m;
            m_transferIn := m_transferIn m + t_qty t;
            m_transferOut := m_transferOut m;
            m_used := m_used m; m_wastage := m_wastage m |} else m in
  let m :=
    if String.eqb (t_type t) "use" && (t_branchId t === branchId)
    then {| m_received := m_received m; m_transferIn := m_transferIn m;
            m_transferOut := m_transferOut m;
            m_used := m_used m + t_qty t; m_wastage := m_wastage m |}
    else m in
  let m :=
    if String.eqb (t_type t) "wastage" && (t_branchId t === branchId)
    then {| m_received := m_received m; m_transferIn := m_transferIn m;
            m_transferOut := m_transferOut m; m_used := m_used m;
            m_wastage := m_wastage m + t_qty t |} else m in
  m.

(** No end-of-day snapshot is stored: the lookup answers [null]. *)
Definition getLatestEndStockBefore (db : DB)
    (branchId itemId dateDay : string) : option Q := None.

Definition calcDailyRecord (db : DB) (branchId itemId dateISO : string)
    : DailyRecord :=
  let day := JS.slice dateISO 0 10 in
  let txs :=
    filter (fun t => String.eqb (t_itemId t) itemId
                     && String.eqb (JS.slice (t_date t) 0 10) day)
           (transactions db) in
  let m :=
    fold_left (dailyStep branchId) txs
      {| m_received := 0; m_transferIn := 0; m_transferOut := 0;
         m_used := 0; m_wastage := 0 |} in
  let previous := getLatestEndStockBefore db branchId itemId day in
  let start := JS.non_null_or previous 0 in
  let end_ :=
    start + m_received m + m_transferIn m - m_used m - m_transferOut m
    - m_wastage m in
  {| start := start; received := m_received m;
     transferIn := m_transferIn m; transferOut := m_transferOut m;
     used := m_used m; wastage := m_wastage m; end_ := end_ |}.

(** ** Reporting *)

(** [daysSeen.add(day)] on a [Set] of strings kept in insertion order. *)
Fixpoint set_add (day : string) (daysSeen : list string) : list string :=
  match daysSeen with
  | [] => [day]
  | d :: rest => if String.eqb d day then daysSeen else d :: set_add day rest
  end.

Section WithDate.

Context {runtime : DateRuntime}.

(** The body of the [forEach] of [avgUsageForItem]; [cutoff] is a time
    value.  An invalid date compares false with every cutoff. *)
Definition avgStep (branchId itemId : string) (cutoff : Z)
    (acc : Q * list string) (t : Transaction) : Q * list string :=
  if String.eqb (t_type t) "use" && (t_branchId t === branchId)
     && String.eqb (t_itemId t) itemId
  then
    match Date_parse (t_date t) with
    | Some d =>
        if (cutoff <=? d)%Z
        then (fst acc + t_qty t, set_add (JS.slice (t_date t) 0 10) (snd acc))
        else acc
    | None => acc
    end
  else acc.

(** [now] is the time value of [new Date()]; the cutoff counts 86400000 ms
    for each of the [rangeDays] days, which is where [setDate] arrives on a
    host without daylight saving ([Binary64.avgUsageForItem] takes the
    cutoff from the host). *)
Definition avgUsageForItem (db : DB) (now : Z)
    (branchId itemId : string) (rangeDays : Z) : option Q :=
  let cutoff := (now - rangeDays * 86400000)%Z in
  let '(total, daysSeen) :=
    fold_left (avgStep branchId itemId cutoff) (transactions db) (0, []) in
  let days :=
    if (List.length daysSeen =? 0)%nat then inject_Z rangeDays
    else inject_Z (Z.of_nat (List.length daysSeen)) in
  JS.div total days.

(** [avgUsageForItem(..) || 0] maps NaN to 0; with a range of 30 days the
    divisor is never 0, so the average is always finite. *)
Definition suggestedOrderQty (db : DB) (now : Z)
    (branchIdArg itemIdArg : string) : Z :=
  match find (fun i => String.eqb (it_id i) itemIdArg) (items db) with
  | None => 0%Z
  | Some item =>
      let avgDaily :=
        JS.num_or (avgUsageForItem db now branchIdArg itemIdArg 30) 0 in
      let lead := JS.num_or (it_leadTime item) 2 in
      let safetyFactor := 12 # 10 in
      let needed :=
        JS.Math_ceil (avgDaily * lead * safetyFactor
                      - getCurrentStock db branchIdArg itemIdArg) in
      if (0 <? needed)%Z then needed else 0%Z
  end.

(** The reducer of [ReportsView]; [year] and [month] are the values of
    [Number(year)] and [Number(month)].  [getFullYear] of an invalid date
    is NaN, which differs from every year. *)
Definition usageStep (branchId rangeType : string) (year month : Z)
    (it : Item) (acc : Q) (t : Transaction) : Q :=
  if negb (String.eqb (t_itemId t) (it_id it)) then acc
  else
    match Date_parse (t_date t) with
    | None => acc
    | Some tdate =>
        if negb (getFullYear tdate =? year)%Z then acc
        else if String.eqb rangeType "monthly"
                && negb (getMonth tdate + 1 =? month)%Z then acc
        else if negb (t_branchId t === branchId)
                && negb (t_branchFrom t === branchId)
                && negb (t_branchTo t === branchId) then acc
        else if String.eqb (t_type t) "use" then acc + t_qty t
        else acc
    end.

End WithDate.

(** An item with its [usedQty], the object [{ ...it, usedQty }]. *)
Record ItemUsage := {
  item : Item;
  usedQty : Q
}.

(** [Array.prototype.sort] is stable: with a consistent comparator its
    result is the stable sorted arrangement, which insertion from the right
    computes. *)
Fixpoint insert {A : Type} (cmp : A -> A -> Q) (x : A) (l : list A)
    : list A :=
  match l with
  | [] => [x]
  | y :: l' => if Qle_bool (cmp x y) 0 then x :: l else y :: insert cmp x l'
  end.

Definition sort {A : Type} (cmp : A -> A -> Q) (l : list A) : list A :=
  fold_right (insert cmp) [] l.

Section Report.

Context {runtime : DateRuntime}.

Definition itemsWithUsage (db : DB) (branchId rangeType : string)
    (year month : Z) : list ItemUsage :=
  sort (fun a b => usedQty b - usedQty a)
    (map (fun it =>
            {| item := it;
               usedQty :=
                 fold_left (usageStep branchId rangeType year month it)
                   (transactions db) 0 |})
         (items db)).

Definition totalCost (db : DB) (branchId rangeType : string)
    (year month : Z) : Q :=
  fold_left
    (fun acc it => acc + usedQty it * JS.num_or (it_unitCost (item it)) 0)
    (itemsWithUsage db branchId rangeType year month) 0.

End Report.

(** ** CRUD helpers: the updaters handed to [setDb] *)

(** The helper [id(prefix)]; [rnd] is [Math.random().toString(36).slice(2, 9)]. *)
Definition id (prefix rnd : string) : string :=
  (prefix ++ "_" ++ rnd)%string.

(** The properties a patch object carries; [None] is an absent property. *)
Record ItemPatch := {
  p_id : option string;
  p_name : option string;
  p_category : option string;
  p_unit : option string;
  p_minStock : option Q;
  p_preferredOrder : option Q;
  p_leadTime : option Q;
  p_unitCost : option Q;
  p_storage : option string
}.

Definition override {A : Type} (old : A) (new : option A) : A :=
  match new with
  | Some v => v
  | None => old
  end.

(** [{ ...it, ...patch }]. *)
Definition spread (it : Item) (patch : ItemPatch) : Item := {|
  it_id := override (it_id it) (p_id patch);
  it_name := override (it_name it) (p_name patch);
  it_category := override (it_category it) (p_category patch);
  it_unit := override (it_unit it) (p_unit patch);
  it_minStock := override (it_minStock it) (p_minStock patch);
  it_preferredOrder := override (it_preferredOrder it) (p_preferredOrder patch);
  it_leadTime :=
    match p_leadTime patch with Some v => Some v | None => it_leadTime it end;
  it_unitCost :=
    match p_unitCost patch with Some v => Some v | None => it_unitCost it end;
  it_storage := override (it_storage it) (p_storage patch)
|}.

Definition with_item_id (it : Item) (i : string) : Item := {|
  it_id := i; it_name := it_name it; it_category := it_category it;
  it_unit := it_unit it; it_minStock := it_minStock it;
  it_preferredOrder := it_preferredOrder it; it_leadTime := it_leadTime it;
  it_unitCost := it_unitCost it; it_storage := it_storage it
|}.

Definition with_tx_id (tx : Transaction) (i : string) : Transaction := {|
  t_id := i; t_type := t_type tx; t_itemId := t_itemId tx; t_qty := t_qty tx;
  t_date := t_date tx; t_notes := t_notes tx; t_branchId := t_branchId tx;
  t_branchFrom := t_branchFrom tx; t_branchTo := t_branchTo tx
|}.

Definition addItem (rnd : string) (it : Item) (prev : DB) : Item * DB :=
  let newItem := with_item_id it (id "i" rnd) in
  (newItem,
   {| branches := branches prev; items := items prev ++ [newItem];
      transactions := transactions prev |}).

Definition updateItem (itemId : string) (patch : ItemPatch) (prev : DB) : DB :=
  {| branches := branches prev;
     items :=
       map (fun it => if String.eqb (it_id it) itemId then spread it patch
                      else it)
           (items prev);
     transactions := transactions prev |}.

Definition removeItem (itemId : string) (prev : DB) : DB :=
  {| branches := branches prev;
     items := filter (fun it => negb (String.eqb (it_id it) itemId))
                     (items prev);
     transactions := transactions prev |}.

Definition addBranch (rnd : string) (name : string) (prev : DB)
    : Branch * DB :=
  let nb := {| b_id := id "b" rnd; b_name := name |} in
  (nb,
   {| branches := branches prev ++ [nb]; items := items prev;
      transactions := transactions prev |}).

(** [addTransaction]: stamps an id and appends; nothing is checked. *)
Definition addTransaction (rnd : string) (tx : Transaction) (prev : DB)
    : Transaction * DB :=
  let ntx := with_tx_id tx (id "t" rnd) in
  (ntx,
   {| branches := branches prev; items := items prev;
      transactions := transactions prev ++ [ntx] |}).

(** ** Event handlers

    The handlers run in a state monad over the [World]: the component state
    they read and write, the clock, the random strings and the alerts
    shown. *)

Record World := {
  w_db : DB;
  w_branchId : string;
  w_view : string;
  w_clock : string;
  w_random : nat -> string;
  w_drawn : nat;
  w_alerts : list string
}.

Definition App (A : Type) : Type := World -> A * World.

Definition ret {A : Type} (a : A) : App A := fun w => (a, w).

Definition bind {A B : Type} (m : App A) (k : A -> App B) : App B :=
  fun w => let '(a, w') := m w in k a w'.

Declare Scope app_scope.
Delimit Scope app_scope with app.
Notation "x <- m ;; k" := (bind m (fun x => k))
  (at level 61, m at next level, right associativity) : app_scope.
Notation "m ;; k" := (bind m (fun _ => k))
  (at level 61, right associativity) : app_scope.

Definition alert (msg : string) : App unit := fun w =>
  (tt, {| w_db := w_db w; w_branchId := w_branchId w; w_view := w_view w;
          w_clock := w_clock w; w_random := w_random w; w_drawn := w_drawn w;
          w_alerts := w_alerts w ++ [msg] |}).

Definition setView (v : string) : App unit := fun w =>
  (tt, {| w_db := w_db w; w_branchId := w_branchId w; w_view := v;
          w_clock := w_clock w; w_random := w_random w; w_drawn := w_drawn w;
          w_alerts := w_alerts w |}).

(** [new Date().toISOString()]. *)
Definition nowISO : App string := fun w => (w_clock w, w).

(** [addTransaction] on the component state, with a fresh random string. *)
Definition recordTransaction (tx : Transaction) : App Transaction := fun w =>
  let '(ntx, db') := addTransaction (w_random w (w_drawn w)) tx (w_db w) in
  (ntx, {| w_db := db'; w_branchId := w_branchId w; w_view := w_view w;
           w_clock := w_clock w; w_random := w_random w;
           w_drawn := S (w_drawn w); w_alerts := w_alerts w |}).

(** The form of [TransfersView]; [f_qty] is the value of [Number(form.qty)]. *)
Record TransferForm := {
  f_branchFrom : string;
  f_branchTo : string;
  f_itemId : string;
  f_qty : Q;
  f_notes : string
}.

(** [createTransfer]; the result is the form after [setForm]. *)
Definition createTransfer (form : TransferForm) : App TransferForm :=
  (if String.eqb (f_itemId form) EmptyString then
     alert "Select item" ;; ret form
   else if String.eqb (f_branchFrom form) (f_branchTo form) then
     alert "From and To cannot be same" ;; ret form
   else
     date <- nowISO ;;
     recordTransaction
       {| t_id := EmptyString; t_type := "transfer"; t_itemId := f_itemId form;
          t_qty := f_qty form; t_date := date; t_notes := f_notes form;
          t_branchId := None; t_branchFrom := Some (f_branchFrom form);
          t_branchTo := Some (f_branchTo form) |} ;;
     alert "Transfer recorded. Recipient will see added stock." ;;
     ret {| f_branchFrom := f_branchFrom form; f_branchTo := f_branchTo form;
            f_itemId := f_itemId form; f_qty := 0;
            f_notes := f_notes form |})%app.

(** A row of [DailyEntryView]; the quantities are the numeric values of the
    inputs. *)
Record Entry := {
  e_itemId : string;
  e_received : Q;
  e_used : Q;
  e_wastage : Q
}.

Definition when (c : bool) (m : App unit) : App unit :=
  if c then m else ret tt.

(** [e.x && e.x > 0]. *)
Definition positive (x : Q) : bool := negb (Qle_bool x 0).

Definition dailyTransaction (type notes itemId : string) (qty : Q)
    : App unit :=
  (date <- nowISO ;;
   branch <- (fun w => (w_branchId w, w)) ;;
   recordTransaction
     {| t_id := EmptyString; t_type := type; t_itemId := itemId; t_qty := qty;
        t_date := date; t_notes := notes; t_branchId := Some branch;
        t_branchFrom := None; t_branchTo := None |} ;;
   ret tt)%app.

Definition saveEntry (e : Entry) : App unit :=
  (when (positive (e_received e))
     (dailyTransaction "receive" "Daily receive" (e_itemId e) (e_received e)) ;;
   when (positive (e_used e))
     (dailyTransaction "use" "Daily use" (e_itemId e) (e_used e)) ;;
   when (positive (e_wastage e))
     (dailyTransaction "wastage" "Wastage" (e_itemId e) (e_wastage e)))%app.

Fixpoint forEach {A : Type} (f : A -> App unit) (l : list A) : App unit :=
  match l with
  | [] => ret tt
  | x :: rest => (f x ;; forEach f rest)%app
  end.

Definition saveAll (entryList : list Entry) : App unit :=
  (forEach saveEntry entryList ;;
   alert "Daily entries saved (demo mode: local). In production backend, transactions will persist to server." ;;
   setView "dashboard")%app.

(** ** The projections as the specification words them

    Each definition below follows the prose of the specification; the
    theorems compare it with the corresponding function of the source. *)

Module Spec.

Definition sumQ (l : list Q) : Q := fold_right Qplus 0 l.

Definition is_type (ty : string) (t : Transaction) : bool :=
  String.eqb (t_type t) ty.

(** The signed contribution of one transaction to the stock of [b]. *)
Definition contribution (b : string) (t : Transaction) : Q :=
  (if is_type "receive" t && (t_branchId t === b) then t_qty t else 0)
  + (if is_type "transfer" t && (t_branchTo t === b) then t_qty t else 0)
  - (if is_type "use" t && (t_branchId t === b) then t_qty t else 0)
  - (if is_type "wastage" t && (t_branchId t === b) then t_qty t else 0)
  - (if is_type "transfer" t && (t_branchFrom t === b) then t_qty t else 0).

(** The sum, over the transactions of item [i], of their contributions. *)
Definition signedSum (b i : string) (txs : list Transaction) : Q :=
  sumQ (map (contribution b)
            (filter (fun t => String.eqb (t_itemId t) i) txs)).

(** The calendar day of a transaction: the date portion of its [date]. *)
Definition day (t : Transaction) : string := JS.slice (t_date t) 0 10.


(** *** Daily movement record *)


(** The quantity of [t] if it is of type [ty] and its branch property
    [field] is [b], else nothing. *)
Definition movement (ty : string) (field : Transaction -> option string)
    (b : string) (t : Transaction) : Q :=
  if is_type ty t && (field t === b) then t_qty t else 0.

Definition total (sel : Transaction -> Q) (txs : list Transaction) : Q :=
  sumQ (map sel txs).

(** *** Period report *)

Section WithDate.

Context {runtime : DateRuntime}.

(** The transaction touches the branch. *)
Definition touches (b : string) (t : Transaction) : bool :=
  (t_branchId t === b) || (t_branchFrom t === b) || (t_branchTo t === b).

(** The year of the transaction is [year] and, when a month is
    supplied, its calendar month is that month. *)
Definition inPeriod (year : Z) (month : option Z) (t : Transaction)
    : bool :=
  match Date_parse (t_date t) with
  | None => false
  | Some d =>
      (getFullYear d =? year)%Z
      && match month with
         | Some m => (getMonth d + 1 =? m)%Z
         | None => true
         end
  end.

Definition periodUsedQty (b : string) (txs : list Transaction)
    (year : Z) (month : option Z) (it : Item) : Q :=
  total t_qty
    (filter (fun t => String.eqb (t_itemId t) (it_id it)
                      && is_type "use" t
                      && inPeriod year month t && touches b t)
            txs).

End WithDate.

(** The month a report is asked for: supplied in monthly mode only. *)
Definition suppliedMonth (rangeType : string) (month : Z) : option Z :=
  if String.eqb rangeType "monthly" then Some month else None.

(** *** Reorder suggestion *)

Definition safety : Q := 12 # 10.

(** [max(0, ceil(avgDaily * lead * safety - currentStock))]. *)
Definition suggestedOrder (avgDaily lead currentStock : Q) : Z :=
  Z.max 0 (Qceiling (avgDaily * lead * safety - currentStock)).

Definition unitCostOf (it : Item) : Q :=
  match it_unitCost it with
  | Some c => c
  | None => 0
  end.

End Spec.

(** The form [TransfersView] starts with. *)
Definition initialTransferForm (w : World) : TransferForm := {|
  f_branchFrom := w_branchId w;
  f_branchTo :=
    match find (fun b => negb (String.eqb (b_id b) (w_branchId w)))
               (branches (w_db w)) with
    | Some b => b_id b
    | None => w_branchId w
    end;
  f_itemId :=
    match items (w_db w) with
    | it :: _ => it_id it
    | [] => EmptyString
    end;
  f_qty := 0;
  f_notes := EmptyString
|}.

(** ** Concrete ledgers and worlds used by the examples *)

Module Scenario.

(** The application right after its first load, Branch 1 selected. *)
Definition freshWorld : World := {|
  w_db := initialState;
  w_branchId := "b_1";
  w_view := "transfers";
  w_clock := "2024-03-01T09:00:00.000Z";
  w_random := fun n => if (n =? 0)%nat then "k3x9q2a" else "p0w7z1c";
  w_drawn := 0;
  w_alerts := []
|}.

Definition transfer (i from to : string) (q : Q) : Transaction := {|
  t_id := EmptyString; t_type := "transfer"; t_itemId := i; t_qty := q;
  t_date := "2024-03-02T08:00:00.000Z"; t_notes := EmptyString;
  t_branchId := None; t_branchFrom := Some from; t_branchTo := Some to
|}.

Definition receive (i b date : string) (q : Q) : Transaction := {|
  t_id := EmptyString; t_type := "receive"; t_itemId := i; t_qty := q;
  t_date := date; t_notes := "Daily receive";
  t_branchId := Some b; t_branchFrom := None; t_branchTo := None
|}.

Definition use (i b date : string) (q : Q) : Transaction := {|
  t_id := EmptyString; t_type := "use"; t_itemId := i; t_qty := q;
  t_date := date; t_notes := "Daily use";
  t_branchId := Some b; t_branchFrom := None; t_branchTo := None
|}.

(** Time value of 2024-03-10T12:00:00.000Z. *)
Definition now : Z :=
  Eval vm_compute in
    match IsoDate.parse "2024-03-10T12:00:00.000Z" with
    | Some z => z
    | None => 0%Z
    end.

Definition ledger (txs : list Transaction) : DB := {|
  branches := defaultBranches;
  items := defaultItems;
  transactions := txs
|}.

(** Scenario 3: uses of 10 on two distinct days of the last 30, after a
    delivery of 25. *)
Definition scenario3 : DB :=
  ledger [ receive "i_veg_tom" "b_1" "2024-03-01T08:00:00.000Z" 25;
           use "i_veg_tom" "b_1" "2024-03-04T18:30:00.000Z" 10;
           use "i_veg_tom" "b_1" "2024-03-08T19:05:12.250Z" 10 ].

End Scenario.

(** ** The remaining views and handlers *)

(** [setDb(updater)]. *)
Definition setDb (f : DB -> DB) : App unit := fun w =>
(tt, {| w_db := f (w_db w); w_branchId := w_branchId w; w_view := w_view w;
        w_clock := w_clock w; w_random := w_random w; w_drawn := w_drawn w;
        w_alerts := w_alerts w |}).

(** [addItem] on the component state, with a fresh random string. *)
Definition createItem (it : Item) : App Item := fun w =>
let '(newItem, db') := addItem (w_random w (w_drawn w)) it (w_db w) in
(newItem, {| w_db := db'; w_branchId := w_branchId w; w_view := w_view w;
             w_clock := w_clock w; w_random := w_random w;
             w_drawn := S (w_drawn w); w_alerts := w_alerts w |}).

(** The empty form of [ItemsView]; it carries no id. *)
Definition blankItemForm : Item := {|
  it_id := EmptyString; it_name := EmptyString; it_category := "Vegetable";
  it_unit := "kg"; it_minStock := 0; it_preferredOrder := 0;
  it_leadTime := Some 2; it_unitCost := Some 0; it_storage := EmptyString
|}.

(** [onAdd] of [ItemsView]; the result is the form after [setForm]. *)
Definition onAdd (form : Item) : App Item :=
  (if String.eqb (it_name form) EmptyString then
     alert "Please enter item name" ;; ret form
   else
     createItem form ;; ret blankItemForm)%app.

(** The form [EditItemView] starts with, [useState(it)]: every property of
    the item. *)
Definition formOf (it : Item) : ItemPatch := {|
  p_id := Some (it_id it); p_name := Some (it_name it);
  p_category := Some (it_category it); p_unit := Some (it_unit it);
  p_minStock := Some (it_minStock it);
  p_preferredOrder := Some (it_preferredOrder it);
  p_leadTime := it_leadTime it; p_unitCost := it_unitCost it;
  p_storage := Some (it_storage it)
|}.

(** [save] of [EditItemView] for the selected item [it]. *)
Definition save (it : Item) (form : ItemPatch) : App unit :=
  (setDb (updateItem (it_id it) form) ;; setView "items")%app.

(** [history] of [TransfersView]: the transfers, latest first. *)
Definition history (db : DB) : list Transaction :=
  rev (filter (fun t => String.eqb (t_type t) "transfer") (transactions db)).

(** A row of [lowList] in [DashboardView]. *)
Record LowRow := {
  l_item : Item;
  l_cur : Q;
  l_low : bool;
  l_suggested : Z
}.

Section Dashboard.

Context {runtime : DateRuntime}.

(** [cur < item.minStock] is [negb (minStock <= cur)]. *)
Definition lowList (db : DB) (now : Z) (branchId : string) : list LowRow :=
  filter (fun _ => true)
    (map (fun item =>
            let cur := getCurrentStock db branchId (it_id item) in
            {| l_item := item; l_cur := cur;
               l_low := negb (Qle_bool (it_minStock item) cur);
               l_suggested := suggestedOrderQty db now branchId (it_id item) |})
         (items db)).

(** The rows under "Top Used Items": [itemsWithUsage.slice(0, 10)]. *)
Definition topUsed (db : DB) (branchId rangeType : string) (year month : Z)
    : list ItemUsage :=
  firstn 10 (itemsWithUsage db branchId rangeType year month).

End Dashboard.

(** ** Usage history

    An object used as a map is the list of its own properties in insertion
    order: the keys of [usageMap] contain [||], so none is an array index,
    which would be enumerated first, nor the name of an inherited
    property.  The objects of [result] are keyed by branch and item ids;
    the model covers ids that are not names of members of
    [Object.prototype], see [plain]. *)

Definition Obj (V : Type) : Type := list (string * V).

Fixpoint obj_get {V : Type} (k : string) (o : Obj V) : option V :=
  match o with
  | [] => None
  | (k', v) :: rest => if String.eqb k' k then Some v else obj_get k rest
  end.

(** [o[k] = v]: an own property keeps its place, a new one goes last. *)
Fixpoint obj_set {V : Type} (k : string) (v : V) (o : Obj V) : Obj V :=
  match o with
  | [] => [(k, v)]
  | (k', v') :: rest =>
      if String.eqb k' k then (k, v) :: rest else (k', v') :: obj_set k v rest
  end.

(** [Object.keys(o)]. *)
Definition keys {V : Type} (o : Obj V) : list string := map fst o.

(** A possibly absent string in a template literal or as a property key. *)
Definition template (x : option string) : string :=
  match x with
  | Some s => s
  | None => "undefined"
  end.

(** [s.split("||")], with [cur] the piece being read: the string is cut at
    each occurrence of the separator, found from left to right. *)
Fixpoint split_bars (s : string) (cur : string) : list string :=
  match s with
  | EmptyString => [cur]
  | String c rest =>
      match rest with
      | String c' rest' =>
          if Ascii.eqb c "|" && Ascii.eqb c' "|"
          then cur :: split_bars rest' EmptyString
          else split_bars rest (cur ++ String c EmptyString)%string
      | EmptyString => [(cur ++ String c EmptyString)%string]
      end
  end.

(** [filter && value !== filter]: a filter that is [null] or empty lets
    everything through. *)
Definition filtered_out (filter : option string) (value : option string)
    : bool :=
  match filter with
  | Some f => negb (String.eqb f EmptyString) && negb (value === f)
  | None => false
  end.

(** The key [`${branch}||${item}||${day}`]. *)
Definition usageKey (branch : option string) (item day : string) : string :=
  (template branch ++ "||" ++ item ++ "||" ++ day)%string.

(** The body of the first [forEach] of [computeUsageHistory]. *)
Definition usageMapStep (branchIdFilter itemIdFilter : option string)
    (usageMap : Obj Q) (t : Transaction) : Obj Q :=
  let day := JS.slice (t_date t) 0 10 in
  if String.eqb (t_type t) "use" || String.eqb (t_type t) "wastage" then
    let branch := t_branchId t in
    let item := t_itemId t in
    if filtered_out branchIdFilter branch then usageMap
    else if filtered_out itemIdFilter (Some item) then usageMap
    else
      let key := usageKey branch item day in
      obj_set key (JS.num_or (obj_get key usageMap) 0 + t_qty t) usageMap
  else usageMap.

(** An element [{ day, qty }] of the per-item arrays. *)
Record DayQty := {
  dq_day : option string;
  dq_qty : Q
}.

(** The body of the second [forEach]; [usageMap[k]] is present for every
    key enumerated. *)
Definition historyStep (usageMap : Obj Q)
    (result : Obj (Obj (list DayQty))) (k : string)
    : Obj (Obj (list DayQty)) :=
  let parts := split_bars k EmptyString in
  let branch := template (nth_error parts 0) in
  let item := template (nth_error parts 1) in
  let day := nth_error parts 2 in
  let result :=
    match obj_get branch result with
    | Some _ => result
    | None => obj_set branch [] result
    end in
  let ofBranch :=
    match obj_get branch result with
    | Some o => o
    | None => []
    end in
  let ofBranch :=
    match obj_get item ofBranch with
    | Some _ => ofBranch
    | None => obj_set item [] ofBranch
    end in
  let ofItem :=
    match obj_get item ofBranch with
    | Some a => a
    | None => []
    end in
  obj_set branch
    (obj_set item
       (ofItem ++ [{| dq_day := day;
                      dq_qty := JS.non_null_or (obj_get k usageMap) 0 |}])
       ofBranch)
    result.

Definition usageMapOf (db : DB) (branchIdFilter itemIdFilter : option string)
    : Obj Q :=
  fold_left (usageMapStep branchIdFilter itemIdFilter) (transactions db) [].

Definition computeUsageHistory (db : DB)
    (branchIdFilter itemIdFilter : option string)
    : Obj (Obj (list DayQty)) :=
  let usageMap := usageMapOf db branchIdFilter itemIdFilter in
  fold_left (historyStep usageMap) (keys usageMap) [].

(** The quantity the history holds for a branch, an item and a day: the
    first element of [result[branch][item]] with that day. *)
Definition historyQty (result : Obj (Obj (list DayQty)))
    (branch item day : string) : option Q :=
  match obj_get branch result with
  | None => None
  | Some ofBranch =>
      match obj_get item ofBranch with
      | None => None
      | Some ofItem =>
          match find (fun e => match dq_day e with
                               | Some d => String.eqb d day
                               | None => false
                               end) ofItem with
          | Some e => Some (dq_qty e)
          | None => None
          end
      end
  end.

(** The string has no ['|']. *)
Fixpoint no_bar (s : string) : bool :=
  match s with
  | EmptyString => true
  | String c rest => negb (Ascii.eqb c "|") && no_bar rest
  end.

(** The property names every object inherits from [Object.prototype]. *)
Definition prototypeNames : list string :=
  [ "constructor"; "__proto__"; "hasOwnProperty"; "isPrototypeOf";
    "propertyIsEnumerable"; "toLocaleString"; "toString"; "valueOf";
    "__defineGetter__"; "__defineSetter__"; "__lookupGetter__";
    "__lookupSetter__" ].

(** An id the history can be keyed by: no ['|'] in it, and not the name of
    an inherited property. *)
Definition plain (s : string) : bool :=
  no_bar s && negb (existsb (String.eqb s) prototypeNames).

(** The transaction counts for the history under the two filters. *)
Definition counted (branchIdFilter itemIdFilter : option string)
    (t : Transaction) : bool :=
  (String.eqb (t_type t) "use" || String.eqb (t_type t) "wastage")
  && negb (filtered_out branchIdFilter (t_branchId t))
  && negb (filtered_out itemIdFilter (Some (t_itemId t))).

(** The counted transactions of a branch, an item and a day. *)
Definition usageGroup (branchIdFilter itemIdFilter : option string)
    (branch item day : string) (txs : list Transaction)
    : list Transaction :=
  filter (fun t => counted branchIdFilter itemIdFilter t
                   && String.eqb (template (t_branchId t)) branch
                   && String.eqb (t_itemId t) item
                   && String.eqb (Spec.day t) day)
         txs.

(** Every counted transaction has a plain branch and item and a day
    without ['|']. *)
Definition plainLedger (branchIdFilter itemIdFilter : option string)
    (txs : list Transaction) : Prop :=
  forall t, In t txs -> counted branchIdFilter itemIdFilter t = true ->
            plain (template (t_branchId t)) = true
            /\ plain (t_itemId t) = true
            /\ no_bar (Spec.day t) = true.

(** A key built from a branch, an item and a day without ['|']. *)
Definition plainKey (k : string) : Prop :=
  exists b i d : string,
    no_bar b = true /\ no_bar i = true /\ no_bar d = true
    /\ k = usageKey (Some b) i d.

(** Every row stored under a branch and an item has a day whose key was
    already read, and the rows of one branch and item have distinct days. *)
Definition rowsOf (seen : list string) (result : Obj (Obj (list DayQty)))
    : Prop :=
  forall (b i : string) (o : Obj (list DayQty)) (rows : list DayQty),
    obj_get b result = Some o -> obj_get i o = Some rows ->
    NoDup (map dq_day rows)
    /\ forall e, In e rows ->
                 exists d, dq_day e = Some d
                           /\ In (usageKey (Some b) i d) seen.

(** The key under which a transaction is counted. *)
Definition keyOf (t : Transaction) : string :=
  usageKey (t_branchId t) (t_itemId t) (Spec.day t).

(** The record of a day without movement. *)
Definition emptyRecord : DailyRecord := {|
  start := 0; received := 0; transferIn := 0; transferOut := 0;
  used := 0; wastage := 0; end_ := 0
|}.

(** The earlier list is kept as the beginning of the later one. *)
Definition extends {A : Type} (later earlier : list A) : Prop :=
  exists new : list A, later = earlier ++ new.

(** ** What [saveAll] is expected to record *)

Module Daily.

(** A quantity to record: item, type, notes, quantity. *)
Record Row := {
  r_itemId : string;
  r_type : string;
  r_notes : string;
  r_qty : Q
}.

(** The rows of an entry: its strictly positive quantities, received first,
    then used, then wastage. *)
Definition entryRows (e : Entry) : list Row :=
  filter (fun r => positive (r_qty r))
    [ {| r_itemId := e_itemId e; r_type := "receive";
         r_notes := "Daily receive"; r_qty := e_received e |};
      {| r_itemId := e_itemId e; r_type := "use";
         r_notes := "Daily use"; r_qty := e_used e |};
      {| r_itemId := e_itemId e; r_type := "wastage";
         r_notes := "Wastage"; r_qty := e_wastage e |} ].

Definition rows (entryList : list Entry) : list Row :=
  flat_map entryRows entryList.

(** The transaction of a row, stamped with the [n]-th random string, the
    clock and the selected branch of [w]. *)
Definition stamp (w : World) (n : nat) (r : Row) : Transaction := {|
  t_id := id "t" (w_random w n); t_type := r_type r; t_itemId := r_itemId r;
  t_qty := r_qty r; t_date := w_clock w; t_notes := r_notes r;
  t_branchId := Some (w_branchId w); t_branchFrom := None; t_branchTo := None
|}.

Fixpoint stamped (w : World) (n : nat) (l : list Row) : list Transaction :=
  match l with
  | [] => []
  | r :: rest => stamp w n r :: stamped w (S n) rest
  end.

(** The world after [txs] were recorded with as many random strings. *)
Definition recorded (w : World) (txs : list Transaction) : World := {|
  w_db := {| branches := branches (w_db w); items := items (w_db w);
             transactions := transactions (w_db w) ++ txs |};
  w_branchId := w_branchId w; w_view := w_view w; w_clock := w_clock w;
  w_random := w_random w; w_drawn := (w_drawn w + List.length txs)%nat;
  w_alerts := w_alerts w
|}.


End Daily.

(** ** The numeric projections on IEEE-754 binary64

    [getCurrentStock], [avgUsageForItem] and [suggestedOrderQty] round and
    compare their sums, so their results depend on the arithmetic of the
    host: here they are embedded on primitive binary64 floats, bit for bit
    the numbers of JavaScript.  A time value stays an integer number of
    milliseconds ([None] for an invalid date), and the move of a date by
    [setDate] on the local calendar belongs to the host. *)

(** [setDate_back now n] is the time value of [d] after
    [d = new Date(now); d.setDate(d.getDate() - n)], [None] when the date
    becomes invalid. *)
Class Calendar := {
  setDate_back : Z -> float -> option Z
}.

Module Binary64.

Open Scope float_scope.

Definition two52 : float := 4503599627370496.

(** The zero with the sign of [x]. *)
Definition signed_zero (x : float) : float :=
  if get_sign x then (-0) else 0.

(** [Math.floor]: NaN, the zeros and the numbers from 2^52 on, which are
    integers, are returned as they are; otherwise adding and subtracting
    2^52 gives the nearest integer [t], and the floor is [t] or [t - 1]. *)
Definition Math_floor (x : float) : float :=
  if is_nan x || (two52 <=? abs x) || (x =? 0) then x
  else
    let t := if 0 <? x then (x + two52) - two52 else (x - two52) + two52 in
    let f := if x <? t then t - 1 else t in
    if f =? 0 then signed_zero x else f.

(** [Math.ceil]. *)
Definition Math_ceil (x : float) : float := - Math_floor (- x).

(** [Math.round]: the nearest integer, ties towards +infinity; the
    difference [x - floor x] is exact. *)
Definition Math_round (x : float) : float :=
  if is_nan x || (two52 <=? abs x) || (x =? 0) then x
  else
    let f := Math_floor x in
    let r := if 0.5 <=? x - f then f + 1 else f in
    if r =? 0 then signed_zero x else r.

(** [Math.max(0, x)]: [+0] for a negative number and for both zeros, [x]
    for a positive number and for NaN. *)
Definition Math_max0 (x : float) : float :=
  if x <? 0 then 0 else if x =? 0 then 0 else x.

(** The falsy numbers: the zeros and NaN. *)
Definition falsy (x : float) : bool := (x =? 0) || is_nan x.

(** [x || d] on numbers. *)
Definition num_or (x d : float) : float := if falsy x then d else x.

(** [x || d] for a number property that may be absent. *)
Definition prop_or (x : option float) (d : float) : float :=
  match x with
  | Some v => num_or v d
  | None => d
  end.

(** The number of elements of a collection as a number; exact below
    2^53. *)
Definition Number_of_nat (n : nat) : float :=
  of_uint63 (Uint63.of_Z (Z.of_nat n)).

(** The exact value of a finite number. *)
Definition exact (x : float) : option Q :=
  match Prim2SF x with
  | S754_zero _ => Some 0%Q
  | S754_finite s m e =>
      let v := (inject_Z (Zpos m) * Qpower 2 e)%Q in
      Some (if s then (- v)%Q else v)
  | _ => None
  end.

Record Item := {
  it_id : string;
  it_name : string;
  it_category : string;
  it_unit : string;
  it_minStock : float;
  it_preferredOrder : float;
  it_leadTime : option float;
  it_unitCost : option float;
  it_storage : string
}.

Record Transaction := {
  t_id : string;
  t_type : string;
  t_itemId : string;
  t_qty : float;
  t_date : string;
  t_notes : string;
  t_branchId : option string;
  t_branchFrom : option string;
  t_branchTo : option string
}.

Record DB := {
  branches : list Branch;
  items : list Item;
  transactions : list Transaction
}.

(** The body of the [forEach] of [getCurrentStock]. *)
Definition stockStep (branchIdArg itemIdArg : string)
    (stock : float) (t : Transaction) : float :=
  if negb (String.eqb (t_itemId t) itemIdArg) then stock
  else
    let stock :=
      if String.eqb (t_type t) "receive" && (t_branchId t === branchIdArg)
      then stock + t_qty t else stock in
    let stock :=
      if String.eqb (t_type t) "transfer" && (t_branchTo t === branchIdArg)
      then stock + t_qty t else stock in
    let stock :=
      if String.eqb (t_type t) "use" && (t_branchId t === branchIdArg)
      then stock - t_qty t else stock in
    let stock :=
      if String.eqb (t_type t) "wastage" && (t_branchId t === branchIdArg)
      then stock - t_qty t else stock in
    let stock :=
      if String.eqb (t_type t) "transfer" && (t_branchFrom t === branchIdArg)
      then stock - t_qty t else stock in
    stock.

Definition getCurrentStock (db : DB) (branchIdArg itemIdArg : string)
    : float :=
  let stock :=
    fold_left (stockStep branchIdArg itemIdArg) (transactions db) 0 in
  Math_max0 (Math_round (stock * 100) / 100).

Section WithHost.

Context {runtime : DateRuntime} {calendar : Calendar}.

(** The body of the [forEach] of [avgUsageForItem]; a comparison with an
    invalid date is false. *)
Definition avgStep (branchId itemId : string) (cutoff : option Z)
    (acc : float * list string) (t : Transaction) : float * list string :=
  if String.eqb (t_type t) "use" && (t_branchId t === branchId)
     && String.eqb (t_itemId t) itemId
  then
    match Date_parse (t_date t), cutoff with
    | Some d, Some c =>
        if (c <=? d)%Z
        then (fst acc + t_qty t, set_add (JS.slice (t_date t) 0 10) (snd acc))
        else acc
    | _, _ => acc
    end
  else acc.

(** [now] is the time value of [new Date()]. *)
Definition avgUsageForItem (db : DB) (now : Z)
    (branchId itemId : string) (rangeDays : float) : float :=
  let cutoff := setDate_back now rangeDays in
  let '(total, daysSeen) :=
    fold_left (avgStep branchId itemId cutoff) (transactions db) (0, []) in
  let days :=
    if (List.length daysSeen =? 0)%nat then rangeDays
    else Number_of_nat (List.length daysSeen) in
  total / days.

Definition suggestedOrderQty (db : DB) (now : Z)
    (branchIdArg itemIdArg : string) : float :=
  match find (fun i => String.eqb (it_id i) itemIdArg) (items db) with
  | None => 0
  | Some item =>
      let avgDaily :=
        num_or (avgUsageForItem db now branchIdArg itemIdArg 30) 0 in
      let lead := prop_or (it_leadTime item) 2 in
      let safetyFactor := 1.2 in
      let needed :=
        Math_ceil (avgDaily * lead * safetyFactor
                   - getCurrentStock db branchIdArg itemIdArg) in
      if 0 <? needed then needed else 0
  end.

End WithHost.

(** *** The projections as the specification words them *)

Module Spec.

(** The signed terms a transaction brings to the stock of [b], in the
    order of the rules: [true] stands for [+qty], [false] for [-qty]. *)
Definition terms (b : string) (t : Transaction) : list (bool * float) :=
  (if String.eqb (t_type t) "receive" && (t_branchId t === b)
   then [(true, t_qty t)] else [])
  ++ (if String.eqb (t_type t) "transfer" && (t_branchTo t === b)
      then [(true, t_qty t)] else [])
  ++ (if String.eqb (t_type t) "use" && (t_branchId t === b)
      then [(false, t_qty t)] else [])
  ++ (if String.eqb (t_type t) "wastage" && (t_branchId t === b)
      then [(false, t_qty t)] else [])
  ++ (if String.eqb (t_type t) "transfer" && (t_branchFrom t === b)
      then [(false, t_qty t)] else []).

(** Adding up signed terms from the left. *)
Definition addTerm (s : float) (term : bool * float) : float :=
  if fst term then s + snd term else s - snd term.

(** The sum, in ledger order, of the terms of the transactions of item
    [i]. *)
Definition signedTotal (b i : string) (txs : list Transaction) : float :=
  fold_left addTerm
    (flat_map (terms b) (filter (fun t => String.eqb (t_itemId t) i) txs))
    0.

(** A transaction of item [i] that brings a term to the stock of [b]. *)
Definition relevant (b i : string) (t : Transaction) : bool :=
  String.eqb (t_itemId t) i
  && match terms b t with
     | [] => false
     | _ :: _ => true
     end.

(** The calendar day of a transaction. *)
Definition day (t : Transaction) : string := JS.slice (t_date t) 0 10.

Section WithHost.

Context {runtime : DateRuntime} {calendar : Calendar}.

(** A use of item [i] at branch [b] dated at or after the cutoff. *)
Definition qualifies (b i : string) (cutoff : option Z) (t : Transaction)
    : bool :=
  String.eqb (t_type t) "use" && (t_branchId t === b)
  && String.eqb (t_itemId t) i
  && match Date_parse (t_date t), cutoff with
     | Some d, Some c => (c <=? d)%Z
     | _, _ => false
     end.

Definition qualifying (b i : string) (txs : list Transaction)
    (windowDays : float) (now : Z) : list Transaction :=
  filter (qualifies b i (setDate_back now windowDays)) txs.

(** The total quantity of a list of transactions, added up from the
    left. *)
Definition total (txs : list Transaction) : float :=
  fold_left (fun s t => s + t_qty t) txs 0.

(** The number of distinct calendar days with a qualifying transaction. *)
Definition activeDays (b i : string) (txs : list Transaction)
    (windowDays : float) (now : Z) : nat :=
  List.length
    (nodup string_dec (map day (qualifying b i txs windowDays now))).

Definition divisor (b i : string) (txs : list Transaction)
    (windowDays : float) (now : Z) : float :=
  match activeDays b i txs windowDays now with
  | O => windowDays
  | S n => Number_of_nat (S n)
  end.

Definition averageDailyUsage (b i : string) (txs : list Transaction)
    (windowDays : float) (now : Z) : float :=
  total (qualifying b i txs windowDays now) / divisor b i txs windowDays now.

End WithHost.

(** Neither a zero nor NaN. *)
Definition nonzero_number (x : float) : bool :=
  negb (x =? 0) && negb (is_nan x).

(** [max(0, x)], and 0 when [x] is not a number. *)
Definition atLeastZero (x : float) : float := if 0 <? x then x else 0.

(** [max(0, ceil(avgDaily * lead * 1.2 - currentStock))]. *)
Definition suggestedOrder (avgDaily lead currentStock : float) : float :=
  atLeastZero (Math_ceil (avgDaily * lead * 1.2 - currentStock)).

(** The lead time, 2 when the item has none. *)
Definition leadWhenUnset (it : Item) : float :=
  match it_leadTime it with
  | Some l => l
  | None => 2
  end.

(** The lead time, 2 when the item has none or a falsy one: 0 or NaN. *)
Definition leadWhenFalsy (it : Item) : float :=
  match it_leadTime it with
  | Some l => if falsy l then 2 else l
  | None => 2
  end.

End Spec.

(** *** Hosts

    [setDate(getDate() - n)] reads the date in local time, puts the day
    of the month less [n], without its fraction, in the place of the day
    of the month, and turns the local time it reaches back into a time
    value; a time value beyond 8.64e15 ms is invalid. *)

Module Zone.

(** The day of the month of a day count. *)
Definition day_of_month (z : Z) : Z :=
  let z' := (z + 719468)%Z in
  let era := (z' / 146097)%Z in
  let doe := (z' - era * 146097)%Z in
  let yoe := ((doe - doe / 1460 + doe / 36524 - doe / 146096) / 365)%Z in
  let doy := (doe - (365 * yoe + yoe / 4 - yoe / 100))%Z in
  let mp := ((5 * doy + 2) / 153)%Z in
  (doy - (153 * mp + 2) / 5 + 1)%Z.

(** The integer part of a finite number, [None] for NaN and the
    infinities. *)
Definition truncate (x : float) : option Z :=
  match Prim2SF x with
  | S754_zero _ => Some 0%Z
  | S754_finite s m e =>
      let mag :=
        (if 0 <=? e then Zpos m * 2 ^ e else Zpos m / 2 ^ (- e))%Z in
      Some (if s then (- mag)%Z else mag)
  | _ => None
  end.

(** [offsetAt t] is the offset of local time from UTC, in ms, at the time
    value [t]; [offsetOf l] is the offset in force at the local time
    [l]. *)
Definition back (offsetAt offsetOf : Z -> Z) (now : Z) (n : float)
    : option Z :=
  let t := (now + offsetAt now)%Z in
  let dom := day_of_month (t / IsoDate.msPerDay)%Z in
  match truncate (of_uint63 (Uint63.of_Z dom) - n) with
  | None => None
  | Some date =>
      let l := (t + (date - dom) * IsoDate.msPerDay)%Z in
      let u := (l - offsetOf l)%Z in
      if (Z.abs u <=? 8640000000000000)%Z then Some u else None
  end.

End Zone.

(** A host on UTC. *)
Module Utc.

Definition back : Z -> float -> option Z :=
  Zone.back (fun _ => 0%Z) (fun _ => 0%Z).

Definition calendar : Calendar := {| setDate_back := back |}.

End Utc.

(** A host on the east coast of the United States in 2024: five hours
    behind UTC, and four from 2024-03-10T07:00Z to 2024-11-03T06:00Z.  A
    local time that the clocks skip or show twice has the offset in force
    before the change. *)
Module Eastern.

Definition hour : Z := 3600000.

Definition offsetAt (t : Z) : Z :=
  if (t <? 1710054000000)%Z then (-5 * hour)%Z
  else if (t <? 1730613600000)%Z then (-4 * hour)%Z
  else (-5 * hour)%Z.

Definition offsetOf (l : Z) : Z :=
  if (l <? 1710039600000)%Z then (-5 * hour)%Z
  else if (l <? 1730599200000)%Z then (-4 * hour)%Z
  else (-5 * hour)%Z.

Definition calendar : Calendar :=
  {| setDate_back := Zone.back offsetAt offsetOf |}.

End Eastern.

(** *** Concrete ledgers *)

Module Scenario.

Definition receive (i b date : string) (q : float) : Transaction := {|
  t_id := EmptyString; t_type := "receive"; t_itemId := i; t_qty := q;
  t_date := date; t_notes := "Daily receive";
  t_branchId := Some b; t_branchFrom := None; t_branchTo := None
|}.

Definition use (i b date : string) (q : float) : Transaction := {|
  t_id := EmptyString; t_type := "use"; t_itemId := i; t_qty := q;
  t_date := date; t_notes := "Daily use";
  t_branchId := Some b; t_branchFrom := None; t_branchTo := None
|}.

Definition transfer (i from to date : string) (q : float) : Transaction := {|
  t_id := EmptyString; t_type := "transfer"; t_itemId := i; t_qty := q;
  t_date := date; t_notes := EmptyString;
  t_branchId := None; t_branchFrom := Some from; t_branchTo := Some to
|}.

Definition tomato (leadTime : option float) : Item := {|
  it_id := "i_veg_tom"; it_name := "Tomato"; it_category := "Vegetable";
  it_unit := "kg"; it_minStock := 10; it_preferredOrder := 20;
  it_leadTime := leadTime; it_unitCost := Some 30; it_storage := "Cold Room"
|}.

Definition ledger (txs : list Transaction) : DB := {|
  branches := defaultBranches;
  items := [tomato (Some 2)];
  transactions := txs
|}.

(** Scenario 2: A receives 20, A uses 5, A transfers 3 to B. *)
Definition scenario2 : DB :=
  ledger [ receive "i_veg_tom" "A" "2024-03-01T09:00:00.000Z" 20;
           use "i_veg_tom" "A" "2024-03-01T18:00:00.000Z" 5;
           transfer "i_veg_tom" "A" "B" "2024-03-02T08:00:00.000Z" 3 ].

(** One delivery of 2.675, a number binary64 stores just below 2.675. *)
Definition nearTie : DB :=
  ledger [ receive "i_veg_tom" "A" "2024-03-01T09:00:00.000Z" 2.675 ].

(** Three deliveries, and the same in the opposite order. *)
Definition deliveries : list Transaction :=
  [ receive "i_veg_tom" "A" "2024-03-01T09:00:00.000Z" 6.705;
    receive "i_veg_tom" "A" "2024-03-02T09:00:00.000Z" 28;
    receive "i_veg_tom" "A" "2024-03-03T09:00:00.000Z" 37.1 ].

(** The deliveries with the movements of another branch and of another
    item between them, in two different places. *)
Definition mixed1 : DB :=
  ledger [ receive "i_veg_tom" "A" "2024-03-01T09:00:00.000Z" 6.705;
           use "i_veg_tom" "B" "2024-03-01T19:00:00.000Z" 1.5;
           receive "i_veg_tom" "A" "2024-03-02T09:00:00.000Z" 28;
           receive "i_meat_pork" "A" "2024-03-02T10:00:00.000Z" 4;
           receive "i_veg_tom" "A" "2024-03-03T09:00:00.000Z" 37.1 ].

Definition mixed2 : DB :=
  ledger [ receive "i_meat_pork" "A" "2024-03-02T10:00:00.000Z" 4;
           receive "i_veg_tom" "A" "2024-03-01T09:00:00.000Z" 6.705;
           receive "i_veg_tom" "A" "2024-03-02T09:00:00.000Z" 28;
           receive "i_veg_tom" "A" "2024-03-03T09:00:00.000Z" 37.1;
           use "i_veg_tom" "B" "2024-03-01T19:00:00.000Z" 1.5 ].

(** Time value of 2024-03-10T12:00:00.000Z. *)
Definition now : Z := 1710072000000.

Definition uses (delivered : float) : list Transaction :=
  [ receive "i_veg_tom" "b_1" "2024-03-01T08:00:00.000Z" delivered;
    use "i_veg_tom" "b_1" "2024-03-04T18:30:00.000Z" 10;
    use "i_veg_tom" "b_1" "2024-03-08T19:05:12.250Z" 10 ].

(** Scenario 3 and the first half of scenario 4: uses of 10 on two days
    of the last 30, after a delivery of 25. *)
Definition scenario3 : DB := ledger (uses 25).

(** Scenario 4, second half: the same uses after a delivery of 45. *)
Definition scenario4 : DB := ledger (uses 45).

(** Scenario 3 with the lead time of the item set to 0. *)
Definition zeroLead : DB := {|
  branches := defaultBranches;
  items := [tomato (Some 0)];
  transactions := uses 25
|}.

(** One use of 6. *)
Definition usedOn (date : string) : DB :=
  ledger [ use "i_veg_tom" "b_1" date 6 ].

(** A use on the day of [now] only. *)
Definition usedToday : DB := usedOn "2024-03-10T12:00:00.000Z".

(** Time values of 2024-03-20T12:00:00.000Z and 2024-11-20T12:00:00.000Z,
    each less than 30 days after a change of the clocks on the east coast
    of the United States. *)
Definition springNow : Z := 1710936000000.

Definition autumnNow : Z := 1732104000000.

(** Uses on three days of the last 30. *)
Definition usesOf (q1 q2 q3 : float) : list Transaction :=
  [ use "i_veg_tom" "b_1" "2024-03-04T18:30:00.000Z" q1;
    use "i_veg_tom" "b_1" "2024-03-06T18:30:00.000Z" q2;
    use "i_veg_tom" "b_1" "2024-03-08T18:30:00.000Z" q3 ].

(** A delivery followed by uses on three days, for an item with the given
    lead time. *)
Definition threeDays (leadTime delivered q1 q2 q3 : float) : DB := {|
  branches := defaultBranches;
  items := [tomato (Some leadTime)];
  transactions :=
    receive "i_veg_tom" "b_1" "2024-03-01T08:00:00.000Z" delivered
    :: usesOf q1 q2 q3
|}.

(** A delivery of 14.245 at A, then a transfer of 31 from A to A. *)
Definition delivered14 : Transaction :=
  receive "i_veg_tom" "A" "2024-03-01T09:00:00.000Z" 14.245.

Definition selfTransfer : Transaction :=
  transfer "i_veg_tom" "A" "A" "2024-03-02T08:00:00.000Z" 31.

End Scenario.

End Binary64.

(** The last line of [getCurrentStock] applied to a total. *)
Definition finish (stock : Q) : Q :=
  JS.Math_max 0 (JS.Math_round (stock * 100) / 100).

(** * Properties *)

(** ** Current stock *)

Section CurrentStock.

Variables branchIdArg itemIdArg : string.

Lemma stockStep_contribution (stock : Q) (t : Transaction) :
  stockStep branchIdArg itemIdArg stock t
  == stock + (if String.eqb (t_itemId t) itemIdArg
              then Spec.contribution branchIdArg t else 0).
Proof.
  unfold stockStep, Spec.contribution, Spec.is_type.
  destruct (String.eqb (t_itemId t) itemIdArg); simpl; [|ring].
  destruct (String.eqb (t_type t) "receive" && _);
    destruct (String.eqb (t_type t) "transfer" && (t_branchTo t === _));
    destruct (String.eqb (t_type t) "use" && _);
    destruct (String.eqb (t_type t) "wastage" && _);
    destruct (String.eqb (t_type t) "transfer" && (t_branchFrom t === _));
    ring.
Qed.

Lemma fold_stockStep (txs : list Transaction) :
  forall stock,
    fold_left (stockStep branchIdArg itemIdArg) txs stock
    == stock + Spec.signedSum branchIdArg itemIdArg txs.
Proof.
  induction txs as [|t txs IH]; intros stock; simpl.
  - unfold Spec.signedSum; simpl; ring.
  - rewrite IH, stockStep_contribution.
    unfold Spec.signedSum; simpl.
    destruct (String.eqb (t_itemId t) itemIdArg); simpl; ring.
Qed.

Lemma stockTotal_signedSum (txs : list Transaction) :
  stockTotal txs branchIdArg itemIdArg
  == Spec.signedSum branchIdArg itemIdArg txs.
Proof. unfold stockTotal; rewrite fold_stockStep; ring. Qed.

End CurrentStock.

(** ** Rounding and clamping *)

Section Rounding.

Lemma Math_round_compat (x y : Q) :
  x == y -> JS.Math_round x = JS.Math_round y.
Proof.
  intros E; unfold JS.Math_round.
  f_equal; apply Qfloor_comp; rewrite E; reflexivity.
Qed.

Lemma finish_compat (x y : Q) : x == y -> finish x = finish y.
Proof.
  intros E; unfold finish.
  rewrite (Math_round_compat (x * 100) (y * 100)); [reflexivity|].
  rewrite E; reflexivity.
Qed.

Lemma Math_max_nonneg (x : Q) : 0 <= JS.Math_max 0 x.
Proof.
  unfold JS.Math_max.
  destruct (Qle_bool 0 x) eqn:E.
  - apply Qle_bool_iff; exact E.
  - apply Qle_refl.
Qed.


End Rounding.

Lemma getCurrentStock_finish (db : DB) (b i : string) :
  getCurrentStock db b i = finish (Spec.signedSum b i (transactions db)).
Proof.
  change (getCurrentStock db b i) with (finish (stockTotal (transactions db) b i)).
  apply finish_compat, stockTotal_signedSum.
Qed.

(** ** Item maintenance *)

Lemma getCurrentStock_ledger_only (db db' : DB) (b i : string) :
  transactions db = transactions db' ->
  getCurrentStock db b i = getCurrentStock db' b i.
Proof. unfold getCurrentStock; intros ->; reflexivity. Qed.

(** C10. Removing an item or updating its attributes leaves the ledger as it
    is, so the current stock of every branch and every item id, the removed
    one included, is the same before and after. *)
Theorem item_maintenance_preserves_stock
    (db : DB) (itemId : string) (patch : ItemPatch) :
  transactions (removeItem itemId db) = transactions db
  /\ transactions (updateItem itemId patch db) = transactions db
  /\ forall b i : string,
       getCurrentStock (removeItem itemId db) b i = getCurrentStock db b i
       /\ getCurrentStock (updateItem itemId patch db) b i
          = getCurrentStock db b i.
Proof.
  split; [reflexivity|split; [reflexivity|]].
  intros b i; split; apply getCurrentStock_ledger_only; reflexivity.
Qed.

(** ** Transfers *)













Section Transfer.

Variables (db : DB) (rnd : string) (tx : Transaction) (A B : string).

Hypothesis distinct : A <> B.
Hypothesis is_transfer : t_type tx = "transfer".
Hypothesis from_A : t_branchFrom tx = Some A.
Hypothesis to_B : t_branchTo tx = Some B.

Let db' : DB := snd (addTransaction rnd tx db).
Let i : string := t_itemId tx.
Let q : Q := t_qty tx.




End Transfer.



(** ** The ledger boundary *)

Lemma addTransaction_appends (rnd : string) (tx : Transaction) (db : DB) :
  transactions (snd (addTransaction rnd tx db))
  = transactions db ++ [with_tx_id tx (id "t" rnd)].
Proof. reflexivity. Qed.

(** A transfer whose two branches are the same is refused with a message
    and the state is left as it was. *)
Lemma createTransfer_same_branch (form : TransferForm) (w : World) :
  f_itemId form <> EmptyString ->
  f_branchFrom form = f_branchTo form ->
  w_db (snd (createTransfer form w)) = w_db w
  /\ w_alerts (snd (createTransfer form w))
     = w_alerts w ++ ["From and To cannot be same"].
Proof.
  intros Hi Hb; unfold createTransfer.
  apply String.eqb_neq in Hi; rewrite Hi.
  apply String.eqb_eq in Hb; rewrite Hb.
  split; reflexivity.
Qed.

(** Any other transfer is recorded, whatever its quantity. *)
Lemma createTransfer_records (form : TransferForm) (w : World) :
  f_itemId form <> EmptyString ->
  f_branchFrom form <> f_branchTo form ->
  exists ntx : Transaction,
    transactions (w_db (snd (createTransfer form w)))
    = transactions (w_db w) ++ [ntx]
    /\ t_type ntx = "transfer" /\ t_qty ntx = f_qty form.
Proof.
  intros Hi Hb; unfold createTransfer.
  apply String.eqb_neq in Hi; rewrite Hi.
  apply String.eqb_neq in Hb; rewrite Hb.
  eexists; split; [reflexivity|split; reflexivity].
Qed.

Lemma positive_spec (x : Q) : positive x = true -> 0 < x.
Proof.
  unfold positive; intros H.
  apply Qnot_le_lt; intros Hc.
  apply Qle_bool_iff in Hc; rewrite Hc in H; discriminate H.
Qed.

Lemma saveEntry_positive (e : Entry) (w : World) :
  exists new : list Transaction,
    transactions (w_db (snd (saveEntry e w))) = transactions (w_db w) ++ new
    /\ Forall (fun t => 0 < t_qty t) new.
Proof.
  unfold saveEntry, when, bind.
  destruct (positive (e_received e)) eqn:Er;
    destruct (positive (e_used e)) eqn:Eu;
    destruct (positive (e_wastage e)) eqn:Ew; simpl;
    rewrite <- ?app_assoc; simpl;
    try (eexists; split; [reflexivity|];
         repeat constructor; simpl; apply positive_spec; assumption).
  exists []; split; [symmetry; apply app_nil_r|constructor].
Qed.

Lemma forEach_saveEntry_positive (entryList : list Entry) :
  forall w : World,
  exists new : list Transaction,
    transactions (w_db (snd (forEach saveEntry entryList w)))
    = transactions (w_db w) ++ new
    /\ Forall (fun t => 0 < t_qty t) new.
Proof.
  induction entryList as [|e rest IH]; intros w; simpl.
  - exists []; split; [symmetry; apply app_nil_r|constructor].
  - unfold bind.
    destruct (saveEntry_positive e w) as [n1 [E1 F1]].
    destruct (saveEntry e w) as [[] w1]; simpl in E1.
    destruct (IH w1) as [n2 [E2 F2]].
    exists (n1 ++ n2); split.
    + rewrite E2, E1, app_assoc; reflexivity.
    + apply Forall_app; split; assumption.
Qed.

(** The daily entry form records strictly positive quantities only. *)
Lemma saveAll_positive (entryList : list Entry) (w : World) :
  exists new : list Transaction,
    transactions (w_db (snd (saveAll entryList w)))
    = transactions (w_db w) ++ new
    /\ Forall (fun t => 0 < t_qty t) new.
Proof.
  destruct (forEach_saveEntry_positive entryList w) as [new [E F]].
  exists new; split; [|exact F].
  unfold saveAll, bind.
  destruct (forEach saveEntry entryList w) as [[] w1]; simpl in *.
  exact E.
Qed.

(** C2, where the code departs from it.  Pressing "Record Transfer" on the
    form as it first appears (quantity 0) appends a transfer of quantity 0
    and reports success; a transfer of -5 is appended as well, and raises
    the stock of the source branch to 5. *)
Theorem createTransfer_records_nonpositive_quantity :
  let w := Scenario.freshWorld in
  let form := initialTransferForm w in
  let w' := snd (createTransfer form w) in
  let negative :=
    {| f_branchFrom := "b_1"; f_branchTo := "b_hq"; f_itemId := "i_veg_tom";
       f_qty := -5; f_notes := EmptyString |} in
  let w'' := snd (createTransfer negative w) in
  f_qty form = 0
  /\ transactions (w_db w)  = []
  /\ transactions (w_db w')
     = [ {| t_id := "t_k3x9q2a"; t_type := "transfer";
            t_itemId := "i_veg_tom"; t_qty := 0;
            t_date := "2024-03-01T09:00:00.000Z"; t_notes := EmptyString;
            t_branchId := None; t_branchFrom := Some "b_1";
            t_branchTo := Some "b_hq" |} ]
  /\ w_alerts w' = ["Transfer recorded. Recipient will see added stock."]
  /\ map t_qty (transactions (w_db w'')) = [-5]
  /\ getCurrentStock (w_db w'') "b_1" "i_veg_tom" == 5.
Proof.
  repeat split; reflexivity.
Qed.

(** ** Daily movement record *)

Section DailyRecord.

Variable branchId : string.

Let rcv := Spec.movement "receive" t_branchId branchId.
Let use := Spec.movement "use" t_branchId branchId.




End DailyRecord.



(** ** The set of days seen *)

Lemma set_add_In (d x : string) (s : list string) :
  In x (set_add d s) <-> x = d \/ In x s.
Proof.
  induction s as [|y s IH]; simpl.
  - intuition.
  - destruct (String.eqb y d) eqn:E; simpl.
    + apply String.eqb_eq in E; subst; intuition.
    + rewrite IH; intuition.
Qed.

Lemma set_add_NoDup (d : string) (s : list string) :
  NoDup s -> NoDup (set_add d s).
Proof.
  induction s as [|y s IH]; simpl; intros N.
  - constructor; [intros []|constructor].
  - destruct (String.eqb y d) eqn:E; [exact N|].
    inversion N as [|? ? Hy Hs]; subst.
    constructor; [|apply IH, Hs].
    rewrite set_add_In; intros [->|H]; [|exact (Hy H)].
    rewrite String.eqb_refl in E; discriminate E.
Qed.

Lemma fold_set_add (l : list string) :
  forall s : list string,
    NoDup s ->
    let s' := fold_left (fun acc d => set_add d acc) l s in
    NoDup s' /\ (forall x, In x s' <-> In x l \/ In x s).
Proof.
  induction l as [|d l IH]; intros s N; simpl.
  - split; [exact N|intuition].
  - destruct (IH (set_add d s) (set_add_NoDup d s N)) as [N' I'].
    split; [exact N'|].
    intros x; rewrite I', set_add_In; intuition.
Qed.

(** The days seen are as many as the distinct days of the list. *)
Lemma days_seen_count (l : list string) :
  List.length (fold_left (fun acc d => set_add d acc) l [])
  = List.length (nodup string_dec l).
Proof.
  destruct (fold_set_add l [] (NoDup_nil _)) as [N I].
  apply Permutation_length, NoDup_Permutation.
  - exact N.
  - apply NoDup_nodup.
  - intros x; rewrite I, nodup_In; simpl; intuition.
Qed.

(** ** Falsy numbers *)

(** [x || 0] is [x] for a number. *)
Lemma num_or_finite (avg : Q) : JS.num_or (Some avg) 0 == avg.
Proof.
  unfold JS.num_or.
  destruct (Qeq_bool avg 0) eqn:E; [|reflexivity].
  apply Qeq_bool_iff in E; symmetry; exact E.
Qed.

(** ** Period report *)

Section Sorting.

Context {A : Type} (key : A -> Q).

(** The comparator [(a, b) => key(b) - key(a)]. *)
Let cmp (a b : A) : Q := key b - key a.

(** [a] may stand before [b] in descending order of [key]. *)
Let desc (a b : A) : Prop := key b <= key a.

Lemma insert_Permutation (x : A) (l : list A) :
  Permutation (insert cmp x l) (x :: l).
Proof.
  induction l as [|y l IH]; simpl; [reflexivity|].
  destruct (Qle_bool (cmp x y) 0); [reflexivity|].
  rewrite IH; apply perm_swap.
Qed.

Lemma sort_Permutation (l : list A) : Permutation (sort cmp l) l.
Proof.
  induction l as [|x l IH]; simpl; [reflexivity|].
  unfold sort in IH; rewrite insert_Permutation, IH; reflexivity.
Qed.

Lemma insert_HdRel (a x : A) (l : list A) :
  desc a x -> HdRel desc a l -> HdRel desc a (insert cmp x l).
Proof.
  intros Hax H; destruct l as [|y l]; simpl.
  - constructor; exact Hax.
  - inversion H; subst.
    destruct (Qle_bool (cmp x y) 0); constructor; assumption.
Qed.

Lemma insert_Sorted (x : A) (l : list A) :
  Sorted desc l -> Sorted desc (insert cmp x l).
Proof.
  induction l as [|y l IH]; simpl; intros S.
  - repeat constructor.
  - inversion S as [|? ? Sl Hd]; subst.
    destruct (Qle_bool (cmp x y) 0) eqn:E.
    + apply Qle_bool_iff in E.
      constructor; [exact S|].
      constructor; unfold desc, cmp in *; lra.
    + constructor; [apply IH, Sl|].
      apply insert_HdRel; [|exact Hd].
      assert (~ cmp x y <= 0) as N.
      { intros C; apply Qle_bool_iff in C; congruence. }
      unfold desc, cmp in *; lra.
Qed.

Lemma sort_StronglySorted (l : list A) : StronglySorted desc (sort cmp l).
Proof.
  apply Sorted_StronglySorted.
  - intros a b c Hab Hbc; unfold desc in *; lra.
  - induction l as [|x l IH]; simpl; [constructor|].
    apply insert_Sorted, IH.
Qed.

End Sorting.

Section ReportFacts.

Context {runtime : DateRuntime}.

Variables (branchId rangeType : string) (year month : Z).

Lemma usageStep_counts (it : Item) (acc : Q) (t : Transaction) :
  usageStep branchId rangeType year month it acc t
  == acc
     + (if String.eqb (t_itemId t) (it_id it) && Spec.is_type "use" t
           && Spec.inPeriod year (Spec.suppliedMonth rangeType month) t
           && Spec.touches branchId t
        then t_qty t else 0).
Proof.
  unfold usageStep, Spec.inPeriod, Spec.suppliedMonth, Spec.touches,
    Spec.is_type.
  destruct (String.eqb (t_itemId t) (it_id it)); simpl; [|ring].
  destruct (Date_parse (t_date t)) as [d|];
    [|rewrite andb_false_r; simpl; ring].
  destruct (getFullYear d =? year)%Z; simpl;
    [|rewrite andb_false_r; simpl; ring].
  destruct (String.eqb rangeType "monthly"); simpl.
  - destruct (getMonth d + 1 =? month)%Z; simpl;
      [|rewrite andb_false_r; simpl; ring].
    destruct (t_branchId t === branchId), (t_branchFrom t === branchId),
      (t_branchTo t === branchId), (String.eqb (t_type t) "use");
      simpl; ring.
  - destruct (t_branchId t === branchId), (t_branchFrom t === branchId),
      (t_branchTo t === branchId), (String.eqb (t_type t) "use");
      simpl; ring.
Qed.

Lemma fold_usageStep (it : Item) (txs : list Transaction) :
  forall acc : Q,
    fold_left (usageStep branchId rangeType year month it) txs acc
    == acc + Spec.periodUsedQty branchId txs year
               (Spec.suppliedMonth rangeType month) it.
Proof.
  unfold Spec.periodUsedQty, Spec.total.
  induction txs as [|t txs IH]; intros acc; simpl; [ring|].
  rewrite IH, usageStep_counts.
  destruct (String.eqb (t_itemId t) (it_id it) && Spec.is_type "use" t
            && Spec.inPeriod year (Spec.suppliedMonth rangeType month) t
            && Spec.touches branchId t); simpl; ring.
Qed.

Lemma fold_cost (rows : list ItemUsage) :
  forall acc : Q,
    fold_left
      (fun acc it => acc + usedQty it * JS.num_or (it_unitCost (item it)) 0)
      rows acc
    == acc + Spec.sumQ (map (fun r => usedQty r * Spec.unitCostOf (item r))
                            rows).
Proof.
  induction rows as [|r rows IH]; intros acc; simpl; [ring|].
  rewrite IH.
  assert (E : JS.num_or (it_unitCost (item r)) 0
              == Spec.unitCostOf (item r)).
  { unfold JS.num_or, Spec.unitCostOf.
    destruct (it_unitCost (item r)) as [c|]; [|reflexivity].
    destruct (Qeq_bool c 0) eqn:Ec; [|reflexivity].
    apply Qeq_bool_iff in Ec; symmetry; exact Ec. }
  rewrite E; ring.
Qed.

End ReportFacts.

(** C7. The report lists every item once, with the total quantity of the
    use transactions of the item that fall in the year (and in the month,
    in monthly mode) and touch the branch; the rows are in descending order
    of that quantity; the total cost is the sum over the rows of quantity
    times unit cost. *)
Theorem itemsWithUsage_spec :
  (forall (runtime : DateRuntime) (db : DB) (b rangeType : string)
          (year month : Z),
      let rows := itemsWithUsage db b rangeType year month in
      Permutation (map item rows) (items db)
      /\ Forall (fun r =>
                   usedQty r
                   == Spec.periodUsedQty b (transactions db) year
                        (Spec.suppliedMonth rangeType month) (item r))
                rows
      /\ StronglySorted (fun r1 r2 => usedQty r2 <= usedQty r1) rows
      /\ totalCost db b rangeType year month
         == Spec.sumQ (map (fun r => usedQty r * Spec.unitCostOf (item r))
                           rows))
  /\ map (fun r => (it_id (item r), usedQty r))
         (itemsWithUsage (runtime := IsoDate.utc) Scenario.scenario3
            "b_1" "monthly" 2024 3)
     = [("i_veg_tom", 20); ("i_meat_pork", 0); ("i_sea_shrimp", 0)]
  /\ totalCost (runtime := IsoDate.utc) Scenario.scenario3
       "b_1" "yearly" 2024 1 == 600.
Proof.
  split; [|split; [vm_compute; reflexivity|vm_compute; reflexivity]].
  intros runtime db b rangeType year month rows.
  set (mk := fun it =>
               {| item := it;
                  usedQty :=
                    fold_left (usageStep b rangeType year month it)
                      (transactions db) 0 |}).
  assert (P : Permutation rows (map mk (items db))).
  { apply (sort_Permutation usedQty). }
  split; [|split; [|split]].
  - rewrite (Permutation_map item P), map_map; simpl.
    rewrite map_id; reflexivity.
  - apply (Permutation_Forall (Permutation_sym P)).
    apply Forall_forall; intros r Hr.
    apply in_map_iff in Hr; destruct Hr as [it [<- _]]; simpl.
    rewrite fold_usageStep; ring.
  - apply (sort_StronglySorted usedQty).
  - unfold totalCost; fold rows.
    rewrite fold_cost; ring.
Qed.

(** * The projections on binary64 *)

(** ** Numbers *)

Section Binary64Numbers.

Local Open Scope float_scope.

(** [Math.max(0, x)] is never below 0. *)
Lemma Math_max0_not_negative (x : float) :
  (Binary64.Math_max0 x <? 0) = false.
Proof.
  unfold Binary64.Math_max0.
  destruct (x <? 0) eqn:L; [reflexivity|].
  destruct (x =? 0); [reflexivity|exact L].
Qed.

(** A number above 0 is neither below 0 nor NaN. *)
Lemma positive_not_negative (x : float) :
  (0 <? x) = true -> (x <? 0) = false /\ is_nan x = false.
Proof.
  unfold is_nan.
  rewrite !FloatAxioms.ltb_spec, FloatAxioms.eqb_spec.
  change (Prim2SF 0) with (S754_zero false).
  destruct (Prim2SF x) as [s|s| |s m e]; try discriminate.
  - destruct s; [discriminate|]. intros _; split; reflexivity.
  - destruct s; [discriminate|]. intros _; split; [reflexivity|].
    unfold SFeqb, SFcompare.
    rewrite Z.compare_refl, Pos.compare_cont_refl. reflexivity.
Qed.

(** 0 divided by a number other than 0 is 0. *)
Lemma zero_div (y : float) :
  Binary64.Spec.nonzero_number y = true -> (0 / y =? 0) = true.
Proof.
  unfold Binary64.Spec.nonzero_number, is_nan.
  rewrite !FloatAxioms.eqb_spec, FloatAxioms.div_spec.
  change (Prim2SF 0) with (S754_zero false).
  destruct (Prim2SF y) as [s|s| |s m e]; try discriminate.
  - destruct s; reflexivity.
  - destruct s; reflexivity.
Qed.

End Binary64Numbers.

(** [Math.round], [Math.ceil] and [Math.max(0, .)] on known numbers: ties
    go up, the sign of a zero result is that of the argument, and
    0.49999999999999994, the number just below one half, rounds to 0. *)
Example Math_round_values :
  map Binary64.Math_round
    [ 2.5; -2.5; 0.5; -0.5; 1.5; -1.5; 0.49999999999999994; -0.4;
      267.5; 267.49999999999994; 100.49999999999999;
      4503599627370495.5; 0; -0; infinity ]%float
  = [ 3; -2; 1; -0; 2; -1; 0; -0;
      268; 267; 100;
      4503599627370496; 0; -0; infinity ]%float.
Proof. reflexivity. Qed.

Example Math_ceil_values :
  map Binary64.Math_ceil
    [ 19; 19.000000000000004; 7.000000000000001; 0.2; -0.5; -1;
      -7.5; 0; -0; neg_infinity ]%float
  = [ 19; 20; 8; 1; -0; -1; -7; 0; -0; neg_infinity ]%float.
Proof. reflexivity. Qed.

Example Math_max0_values :
  map Binary64.Math_max0 [ 3.5; 0; -0; -2; infinity; neg_infinity ]%float
  = [ 3.5; 0; 0; 0; infinity; 0 ]%float
  /\ is_nan (Binary64.Math_max0 nan) = true
  /\ is_nan (Binary64.Math_round nan) = true
  /\ is_nan (Binary64.Math_ceil nan) = true.
Proof. repeat split; reflexivity. Qed.

(** ** Current stock *)

Section Binary64Stock.

Variables b i : string.

(** The five rules of [getCurrentStock] add the signed terms of the
    transaction, in the order of the rules. *)
Lemma stockStep_terms (stock : float) (t : Binary64.Transaction) :
  Binary64.stockStep b i stock t
  = if String.eqb (Binary64.t_itemId t) i
    then fold_left Binary64.Spec.addTerm (Binary64.Spec.terms b t) stock
    else stock.
Proof.
  unfold Binary64.stockStep, Binary64.Spec.terms.
  destruct (String.eqb (Binary64.t_itemId t) i); [|reflexivity].
  destruct (String.eqb (Binary64.t_type t) "receive"),
    (String.eqb (Binary64.t_type t) "transfer"),
    (String.eqb (Binary64.t_type t) "use"),
    (String.eqb (Binary64.t_type t) "wastage"),
    (Binary64.t_branchId t === b),
    (Binary64.t_branchTo t === b),
    (Binary64.t_branchFrom t === b); reflexivity.
Qed.

Lemma fold_stockStep_terms (txs : list Binary64.Transaction) :
  forall stock : float,
    fold_left (Binary64.stockStep b i) txs stock
    = fold_left Binary64.Spec.addTerm
        (flat_map (Binary64.Spec.terms b)
           (filter (fun t => String.eqb (Binary64.t_itemId t) i) txs))
        stock.
Proof.
  induction txs as [|t txs IH]; intros stock; [reflexivity|].
  cbn [fold_left filter]. rewrite IH, stockStep_terms.
  destruct (String.eqb (Binary64.t_itemId t) i); [|reflexivity].
  cbn [flat_map]. rewrite fold_left_app. reflexivity.
Qed.

(** Only the relevant transactions bring terms. *)
Lemma terms_relevant (txs : list Binary64.Transaction) :
  flat_map (Binary64.Spec.terms b)
    (filter (fun t => String.eqb (Binary64.t_itemId t) i) txs)
  = flat_map (Binary64.Spec.terms b)
      (filter (Binary64.Spec.relevant b i) txs).
Proof.
  induction txs as [|t txs IH]; [reflexivity|].
  cbn [filter]. unfold Binary64.Spec.relevant at 1.
  destruct (String.eqb (Binary64.t_itemId t) i); cbn [andb]; [|exact IH].
  destruct (Binary64.Spec.terms b t) eqn:E.
  - cbn [flat_map]. rewrite E. exact IH.
  - cbn [flat_map]. rewrite E, IH. reflexivity.
Qed.

End Binary64Stock.

Lemma getCurrentStock_signedTotal (db : Binary64.DB) (b i : string) :
  Binary64.getCurrentStock db b i
  = Binary64.Math_max0
      (Binary64.Math_round
         (Binary64.Spec.signedTotal b i (Binary64.transactions db) * 100)
       / 100)%float.
Proof.
  unfold Binary64.getCurrentStock, Binary64.Spec.signedTotal.
  cbv zeta. rewrite fold_stockStep_terms. reflexivity.
Qed.

(** C1, as the code has it.  [getCurrentStock] adds up, in binary64 and in
    ledger order, the signed terms of the transactions of the item: +qty
    for a receive at the branch and a transfer to it, -qty for a use and a
    wastage at the branch and a transfer from it; the total is multiplied by
    100, rounded with [Math.round], divided by 100 and clamped with
    [Math.max(0, .)]; the result is never below 0.  For receive 20 at A,
    use 5 at A, transfer 3 from A to B the stock is 12 at A and 3 at B. *)
Theorem getCurrentStock_binary64_sum :
  (forall (db : Binary64.DB) (b i : string),
     Binary64.getCurrentStock db b i
     = Binary64.Math_max0
         (Binary64.Math_round
            (Binary64.Spec.signedTotal b i (Binary64.transactions db) * 100)
          / 100)%float)
  /\ (forall (db : Binary64.DB) (b i : string),
        (Binary64.getCurrentStock db b i <? 0)%float = false)
  /\ Binary64.getCurrentStock Binary64.Scenario.scenario2 "A" "i_veg_tom"
     = 12%float
  /\ Binary64.getCurrentStock Binary64.Scenario.scenario2 "B" "i_veg_tom"
     = 3%float.
Proof.
  split; [exact getCurrentStock_signedTotal|].
  split; [|split; vm_compute; reflexivity].
  intros db b i. apply Math_max0_not_negative.
Qed.

(** C1, counterexample.  After one delivery of 2.675 the stock is 2.68,
    although the total the ledger holds, the binary64 number nearest to
    2.675, lies below 2.675: the result is more than half a hundredth away
    from the sum, so it is not the sum rounded to 2 decimal places. *)
Lemma getCurrentStock_rounding_counterexample :
  Binary64.getCurrentStock Binary64.Scenario.nearTie "A" "i_veg_tom"
  = 2.68%float
  /\ exists total stock : Q,
       Binary64.exact
         (Binary64.Spec.signedTotal "A" "i_veg_tom"
            (Binary64.transactions Binary64.Scenario.nearTie))
       = Some total
       /\ Binary64.exact
            (Binary64.getCurrentStock Binary64.Scenario.nearTie
               "A" "i_veg_tom")
          = Some stock
       /\ total < 2675 # 1000
       /\ 1 # 200 < stock - total.
Proof.
  split; [vm_compute; reflexivity|].
  eexists; eexists.
  split; [vm_compute; reflexivity|].
  split; [vm_compute; reflexivity|].
  split; reflexivity.
Qed.

(** C8, as the code has it.  [getCurrentStock] depends only on the
    transactions of the item that bring a term to the branch, taken in
    ledger order: two ledgers in which these are the same sequence have the
    same stock, wherever the other transactions stand. *)
Theorem getCurrentStock_relevant_order (db db' : Binary64.DB)
    (b i : string) :
  filter (Binary64.Spec.relevant b i) (Binary64.transactions db)
  = filter (Binary64.Spec.relevant b i) (Binary64.transactions db') ->
  Binary64.getCurrentStock db b i = Binary64.getCurrentStock db' b i.
Proof.
  intros E. rewrite !getCurrentStock_signedTotal.
  unfold Binary64.Spec.signedTotal.
  rewrite !terms_relevant, E. reflexivity.
Qed.

Lemma getCurrentStock_relevant_order_witness :
  Binary64.getCurrentStock Binary64.Scenario.mixed1 "A" "i_veg_tom"
  = Binary64.getCurrentStock Binary64.Scenario.mixed2 "A" "i_veg_tom".
Proof.
  apply (getCurrentStock_relevant_order
           Binary64.Scenario.mixed1 Binary64.Scenario.mixed2
           "A" "i_veg_tom").
  reflexivity.
Defined.

(** C8, counterexample.  Deliveries of 6.705, 28 and 37.1 give a stock of
    71.81; the same deliveries in the opposite order give 71.8. *)
Lemma getCurrentStock_order_counterexample :
  Permutation Binary64.Scenario.deliveries
    (rev Binary64.Scenario.deliveries)
  /\ Binary64.getCurrentStock
       (Binary64.Scenario.ledger Binary64.Scenario.deliveries)
       "A" "i_veg_tom" = 71.81%float
  /\ Binary64.getCurrentStock
       (Binary64.Scenario.ledger (rev Binary64.Scenario.deliveries))
       "A" "i_veg_tom" = 71.8%float
  /\ (71.81 =? 71.8)%float = false.
Proof.
  split; [apply Permutation_rev|].
  split; [vm_compute; reflexivity|].
  split; vm_compute; reflexivity.
Qed.

(** ** Trailing average daily usage *)

Section Binary64Average.

Context {runtime : DateRuntime} {calendar : Calendar}.

Variables (branchId itemId : string) (cutoff : option Z).

Lemma fold_avgStep_qualifying (txs : list Binary64.Transaction) :
  forall acc : float * list string,
    fold_left (Binary64.avgStep branchId itemId cutoff) txs acc
    = (fold_left (fun s t => (s + Binary64.t_qty t)%float)
         (filter (Binary64.Spec.qualifies branchId itemId cutoff) txs)
         (fst acc),
       fold_left (fun seen d => set_add d seen)
         (map Binary64.Spec.day
            (filter (Binary64.Spec.qualifies branchId itemId cutoff) txs))
         (snd acc)).
Proof.
  induction txs as [|t txs IH]; intros [total seen]; [reflexivity|].
  cbn [fold_left filter]. rewrite IH.
  unfold Binary64.avgStep, Binary64.Spec.qualifies.
  destruct (String.eqb (Binary64.t_type t) "use"
            && (Binary64.t_branchId t === branchId)
            && String.eqb (Binary64.t_itemId t) itemId);
    cbn [andb]; [|reflexivity].
  destruct (Date_parse (Binary64.t_date t)) as [d|]; [|reflexivity].
  destruct cutoff as [c|]; [|reflexivity].
  destruct (c <=? d)%Z; reflexivity.
Qed.

End Binary64Average.

(** [avgUsageForItem] is the total of the qualifying uses over the
    divisor of the specification. *)
Lemma avgUsageForItem_averageDailyUsage
    {runtime : DateRuntime} {calendar : Calendar}
    (db : Binary64.DB) (now : Z) (b i : string) (windowDays : float) :
  Binary64.avgUsageForItem db now b i windowDays
  = Binary64.Spec.averageDailyUsage b i (Binary64.transactions db)
      windowDays now.
Proof.
  unfold Binary64.avgUsageForItem, Binary64.Spec.averageDailyUsage,
    Binary64.Spec.divisor, Binary64.Spec.activeDays, Binary64.Spec.total,
    Binary64.Spec.qualifying.
  rewrite fold_avgStep_qualifying. cbn [fst snd].
  rewrite days_seen_count.
  destruct (List.length _); reflexivity.
Qed.

(** C4, as the code has it.  [avgUsageForItem] adds up, in binary64 and
    in ledger order, the quantities of the uses of the item at the branch
    dated at or after the cutoff, the date [setDate] reaches [windowDays]
    days before [now], and divides the total by the number of distinct
    calendar days of these uses, or by [windowDays] when there is none.
    Without a qualifying use the result is 0 for every [windowDays] that is
    a number other than 0.  Uses of 10 on 2 days of a 30-day window give
    10, and a use of 6 dated [now] gives 6 for a window of 0 days. *)
Theorem avgUsageForItem_binary64_spec :
  (forall (runtime : DateRuntime) (calendar : Calendar)
          (db : Binary64.DB) (now : Z) (b i : string) (windowDays : float),
     Binary64.avgUsageForItem db now b i windowDays
     = Binary64.Spec.averageDailyUsage b i (Binary64.transactions db)
         windowDays now)
  /\ (forall (runtime : DateRuntime) (calendar : Calendar)
             (db : Binary64.DB) (now : Z) (b i : string)
             (windowDays : float),
        Binary64.Spec.qualifying b i (Binary64.transactions db)
          windowDays now = [] ->
        Binary64.Spec.nonzero_number windowDays = true ->
        (Binary64.avgUsageForItem db now b i windowDays =? 0)%float = true)
  /\ Binary64.avgUsageForItem (runtime := IsoDate.utc)
       (calendar := Binary64.Utc.calendar)
       Binary64.Scenario.scenario3 Binary64.Scenario.now
       "b_1" "i_veg_tom" 30 = 10%float
  /\ Binary64.avgUsageForItem (runtime := IsoDate.utc)
       (calendar := Binary64.Utc.calendar)
       Binary64.Scenario.usedToday Binary64.Scenario.now
       "b_1" "i_veg_tom" 0 = 6%float.
Proof.
  split; [intros; apply avgUsageForItem_averageDailyUsage|].
  split; [|split; vm_compute; reflexivity].
  intros runtime calendar db now b i windowDays E N.
  rewrite avgUsageForItem_averageDailyUsage.
  unfold Binary64.Spec.averageDailyUsage, Binary64.Spec.divisor,
    Binary64.Spec.activeDays.
  rewrite E. cbn [map nodup List.length Binary64.Spec.total fold_left].
  apply zero_div, N.
Qed.

Lemma avgUsageForItem_binary64_spec_witness :
  (Binary64.avgUsageForItem (runtime := IsoDate.utc)
     (calendar := Binary64.Utc.calendar)
     Binary64.Scenario.scenario2 Binary64.Scenario.now
     "b_1" "i_veg_tom" 30 =? 0)%float = true.
Proof.
  apply (proj1 (proj2 avgUsageForItem_binary64_spec)
           IsoDate.utc Binary64.Utc.calendar
           Binary64.Scenario.scenario2 Binary64.Scenario.now
           "b_1" "i_veg_tom" 30%float);
    vm_compute; reflexivity.
Defined.

(** C4, counterexample.  With a window of 0 days and no qualifying use
    the divisor is 0 and the result is 0/0 = NaN. *)
Lemma avgUsageForItem_zero_window_nan :
  Binary64.Spec.qualifying (runtime := IsoDate.utc)
    (calendar := Binary64.Utc.calendar)
    "b_1" "i_veg_tom"
    (Binary64.transactions Binary64.Scenario.scenario3) 0
    Binary64.Scenario.now = []
  /\ is_nan
       (Binary64.avgUsageForItem (runtime := IsoDate.utc)
          (calendar := Binary64.Utc.calendar)
          Binary64.Scenario.scenario3 Binary64.Scenario.now
          "b_1" "i_veg_tom" 0) = true.
Proof.
  split; vm_compute; reflexivity.
Qed.

(** Across a change of the clocks the cutoff is not a whole number of
    days of 24 hours before [now].  In the autumn the cutoff of 30 days is
    an hour earlier: a use dated 2024-10-21T11:30Z counts on 2024-11-20 at
    12:00Z on the east coast of the United States, not on UTC.  In the
    spring it is an hour later: a use dated 2024-02-19T12:30Z does not
    count on 2024-03-20 at 12:00Z there, and counts on UTC. *)
Example avgUsageForItem_autumn :
  setDate_back (Calendar := Binary64.Eastern.calendar)
    Binary64.Scenario.autumnNow 30
  = IsoDate.parse "2024-10-21T11:00:00.000Z"
  /\ Binary64.avgUsageForItem (runtime := IsoDate.utc)
       (calendar := Binary64.Eastern.calendar)
       (Binary64.Scenario.usedOn "2024-10-21T11:30:00.000Z")
       Binary64.Scenario.autumnNow "b_1" "i_veg_tom" 30 = 6%float
  /\ Binary64.suggestedOrderQty (runtime := IsoDate.utc)
       (calendar := Binary64.Eastern.calendar)
       (Binary64.Scenario.usedOn "2024-10-21T11:30:00.000Z")
       Binary64.Scenario.autumnNow "b_1" "i_veg_tom" = 15%float
  /\ Binary64.avgUsageForItem (runtime := IsoDate.utc)
       (calendar := Binary64.Utc.calendar)
       (Binary64.Scenario.usedOn "2024-10-21T11:30:00.000Z")
       Binary64.Scenario.autumnNow "b_1" "i_veg_tom" 30 = 0%float.
Proof. repeat split; vm_compute; reflexivity. Qed.

Example avgUsageForItem_spring :
  setDate_back (Calendar := Binary64.Eastern.calendar)
    Binary64.Scenario.springNow 30
  = IsoDate.parse "2024-02-19T13:00:00.000Z"
  /\ Binary64.avgUsageForItem (runtime := IsoDate.utc)
       (calendar := Binary64.Eastern.calendar)
       (Binary64.Scenario.usedOn "2024-02-19T12:30:00.000Z")
       Binary64.Scenario.springNow "b_1" "i_veg_tom" 30 = 0%float
  /\ Binary64.suggestedOrderQty (runtime := IsoDate.utc)
       (calendar := Binary64.Eastern.calendar)
       (Binary64.Scenario.usedOn "2024-02-19T12:30:00.000Z")
       Binary64.Scenario.springNow "b_1" "i_veg_tom" = 0%float
  /\ Binary64.avgUsageForItem (runtime := IsoDate.utc)
       (calendar := Binary64.Utc.calendar)
       (Binary64.Scenario.usedOn "2024-02-19T12:30:00.000Z")
       Binary64.Scenario.springNow "b_1" "i_veg_tom" 30 = 6%float.
Proof. repeat split; vm_compute; reflexivity. Qed.

(** ** Suggested order quantity *)

Lemma suggestedOrderQty_suggestedOrder
    {runtime : DateRuntime} {calendar : Calendar}
    (db : Binary64.DB) (now : Z) (b i : string) (it : Binary64.Item) :
  find (fun x => String.eqb (Binary64.it_id x) i) (Binary64.items db)
  = Some it ->
  Binary64.suggestedOrderQty db now b i
  = Binary64.Spec.suggestedOrder
      (Binary64.num_or
         (Binary64.Spec.averageDailyUsage b i (Binary64.transactions db)
            30 now) 0)
      (Binary64.Spec.leadWhenFalsy it)
      (Binary64.getCurrentStock db b i).
Proof.
  intros F. unfold Binary64.suggestedOrderQty. rewrite F. cbv zeta.
  rewrite avgUsageForItem_averageDailyUsage.
  unfold Binary64.Spec.suggestedOrder, Binary64.Spec.atLeastZero,
    Binary64.Spec.leadWhenFalsy, Binary64.prop_or, Binary64.num_or.
  destruct (Binary64.it_leadTime it) as [l|]; reflexivity.
Qed.

(** C5, as the code has it.  For an item of the list, [suggestedOrderQty]
    is max(0, ceil(avgDaily * lead * 1.2 - currentStock)) evaluated in
    binary64 from the left, where avgDaily is the 30-day average daily
    usage, 0 where that is not a number, and lead is the lead time of the
    item, 2 when it is unset, 0 or NaN; for an id that is not in the list
    the result is 0.  With an average of 10 and a lead time of 2, a stock
    of 5 gives 19 and a stock of 25 gives 0. *)
Theorem suggestedOrderQty_binary64_spec :
  (forall (runtime : DateRuntime) (calendar : Calendar)
          (db : Binary64.DB) (now : Z) (b i : string),
     Binary64.suggestedOrderQty db now b i
     = match find (fun x => String.eqb (Binary64.it_id x) i)
               (Binary64.items db) with
       | Some it =>
           Binary64.Spec.suggestedOrder
             (Binary64.num_or
                (Binary64.Spec.averageDailyUsage b i
                   (Binary64.transactions db) 30 now) 0)
             (Binary64.Spec.leadWhenFalsy it)
             (Binary64.getCurrentStock db b i)
       | None => 0%float
       end)
  /\ (Binary64.avgUsageForItem (runtime := IsoDate.utc)
        (calendar := Binary64.Utc.calendar)
        Binary64.Scenario.scenario3 Binary64.Scenario.now
        "b_1" "i_veg_tom" 30 = 10%float
      /\ Binary64.getCurrentStock Binary64.Scenario.scenario3
           "b_1" "i_veg_tom" = 5%float
      /\ Binary64.suggestedOrderQty (runtime := IsoDate.utc)
           (calendar := Binary64.Utc.calendar)
           Binary64.Scenario.scenario3 Binary64.Scenario.now
           "b_1" "i_veg_tom" = 19%float)
  /\ (Binary64.getCurrentStock Binary64.Scenario.scenario4
        "b_1" "i_veg_tom" = 25%float
      /\ Binary64.suggestedOrderQty (runtime := IsoDate.utc)
           (calendar := Binary64.Utc.calendar)
           Binary64.Scenario.scenario4 Binary64.Scenario.now
           "b_1" "i_veg_tom" = 0%float)
  /\ Binary64.suggestedOrderQty (runtime := IsoDate.utc)
       (calendar := Binary64.Utc.calendar)
       Binary64.Scenario.scenario3 Binary64.Scenario.now
       "b_1" "i_unknown" = 0%float.
Proof.
  split.
  - intros runtime calendar db now b i.
    destruct (find (fun x => String.eqb (Binary64.it_id x) i)
                (Binary64.items db)) as [it|] eqn:F.
    + apply suggestedOrderQty_suggestedOrder, F.
    + unfold Binary64.suggestedOrderQty. rewrite F. reflexivity.
  - repeat split; vm_compute; reflexivity.
Qed.

(** C5, counterexample.  For an item whose lead time is 0, with an
    average of 10 and a stock of 5, the code suggests 19 where the formula
    with the stored lead time, the default of 2 standing in for an unset
    one only, gives 0.  And with uses of 1, 1 and 0.5 on three days, a lead
    time of 7 and no stock the code suggests 8, the product
    avgDaily * 7 * 1.2 being 7.000000000000001 in binary64, where the
    formula on exact numbers gives 7. *)
Lemma suggestedOrderQty_lead_counterexample :
  (Binary64.suggestedOrderQty (runtime := IsoDate.utc)
     (calendar := Binary64.Utc.calendar)
     Binary64.Scenario.zeroLead Binary64.Scenario.now
     "b_1" "i_veg_tom" = 19%float
   /\ match find (fun x => String.eqb (Binary64.it_id x) "i_veg_tom")
              (Binary64.items Binary64.Scenario.zeroLead) with
      | Some it =>
          Binary64.Spec.suggestedOrder
            (Binary64.num_or
               (Binary64.Spec.averageDailyUsage (runtime := IsoDate.utc)
                  (calendar := Binary64.Utc.calendar) "b_1" "i_veg_tom"
                  (Binary64.transactions Binary64.Scenario.zeroLead)
                  30 Binary64.Scenario.now) 0)
            (Binary64.Spec.leadWhenUnset it)
            (Binary64.getCurrentStock Binary64.Scenario.zeroLead
               "b_1" "i_veg_tom")
      | None => 0%float
      end = 0%float)
  /\ (Binary64.suggestedOrderQty (runtime := IsoDate.utc)
        (calendar := Binary64.Utc.calendar)
        (Binary64.Scenario.threeDays 7 2.5 1 1 0.5) Binary64.Scenario.now
        "b_1" "i_veg_tom" = 8%float
      /\ Binary64.getCurrentStock
           (Binary64.Scenario.threeDays 7 2.5 1 1 0.5)
           "b_1" "i_veg_tom" = 0%float
      /\ Spec.suggestedOrder ((1 + 1 + (1 # 2)) / 3) 7 0 = 7%Z).
Proof.
  repeat split; vm_compute; reflexivity.
Qed.

(** C9.  For an item whose stored lead time is 0, [suggestedOrderQty]
    computes with a lead time of 2: the result is the formula at lead 2,
    the same as for an item without a lead time.  On a ledger with an
    average of 10 and a stock of 5 such an item gets a suggestion of 19,
    where the formula at lead 0 gives 0. *)
Theorem zero_lead_time_binary64_default :
  (forall (runtime : DateRuntime) (calendar : Calendar)
          (db : Binary64.DB) (now : Z) (b i : string)
          (it : Binary64.Item) (l : float),
     find (fun x => String.eqb (Binary64.it_id x) i) (Binary64.items db)
     = Some it ->
     Binary64.it_leadTime it = Some l ->
     (l =? 0)%float = true ->
     Binary64.suggestedOrderQty db now b i
     = Binary64.Spec.suggestedOrder
         (Binary64.num_or
            (Binary64.Spec.averageDailyUsage b i
               (Binary64.transactions db) 30 now) 0)
         2
         (Binary64.getCurrentStock db b i))
  /\ (Binary64.suggestedOrderQty (runtime := IsoDate.utc)
        (calendar := Binary64.Utc.calendar)
        Binary64.Scenario.zeroLead Binary64.Scenario.now
        "b_1" "i_veg_tom" = 19%float
      /\ (0 <? 19)%float = true
      /\ Binary64.Spec.suggestedOrder
           (Binary64.num_or
              (Binary64.Spec.averageDailyUsage (runtime := IsoDate.utc)
                 (calendar := Binary64.Utc.calendar) "b_1" "i_veg_tom"
                 (Binary64.transactions Binary64.Scenario.zeroLead)
                 30 Binary64.Scenario.now) 0)
           0
           (Binary64.getCurrentStock Binary64.Scenario.zeroLead
              "b_1" "i_veg_tom") = 0%float).
Proof.
  split; [|repeat split; vm_compute; reflexivity].
  intros runtime calendar db now b i it l F L Z.
  rewrite (suggestedOrderQty_suggestedOrder db now b i it F).
  unfold Binary64.Spec.leadWhenFalsy, Binary64.falsy.
  rewrite L, Z. reflexivity.
Qed.

Lemma zero_lead_time_binary64_default_witness :
  Binary64.suggestedOrderQty (runtime := IsoDate.utc)
    (calendar := Binary64.Utc.calendar)
    Binary64.Scenario.zeroLead Binary64.Scenario.now "b_1" "i_veg_tom"
  = Binary64.Spec.suggestedOrder
      (Binary64.num_or
         (Binary64.Spec.averageDailyUsage (runtime := IsoDate.utc)
            (calendar := Binary64.Utc.calendar) "b_1" "i_veg_tom"
            (Binary64.transactions Binary64.Scenario.zeroLead)
            30 Binary64.Scenario.now) 0)
      2
      (Binary64.getCurrentStock Binary64.Scenario.zeroLead
         "b_1" "i_veg_tom").
Proof.
  apply (proj1 zero_lead_time_binary64_default
           IsoDate.utc Binary64.Utc.calendar
           Binary64.Scenario.zeroLead Binary64.Scenario.now
           "b_1" "i_veg_tom" (Binary64.Scenario.tomato (Some 0%float))
           0%float);
    reflexivity.
Defined.

(** ** The date model on known instants *)

Example parse_epoch : IsoDate.parse "1970-01-01T00:00:00.000Z" = Some 0%Z.
Proof. reflexivity. Qed.

Example parse_leap_day : IsoDate.parse "2000-02-29" = Some 951782400000%Z.
Proof. reflexivity. Qed.

Example parse_now :
  IsoDate.parse "2024-03-10T12:00:00.000Z" = Some Binary64.Scenario.now
  /\ IsoDate.parse "2024-03-20T12:00:00.000Z"
     = Some Binary64.Scenario.springNow
  /\ IsoDate.parse "2024-11-20T12:00:00.000Z"
     = Some Binary64.Scenario.autumnNow.
Proof. repeat split; reflexivity. Qed.

(** The clocks of the east coast change at 2024-03-10T07:00Z, from 02:00
    to 03:00 local time, and at 2024-11-03T06:00Z, from 02:00 to 01:00. *)
Example eastern_changes :
  map IsoDate.parse
    [ "2024-03-10T07:00:00.000Z"; "2024-03-10T03:00:00.000Z";
      "2024-11-03T06:00:00.000Z"; "2024-11-03T02:00:00.000Z" ]
  = [ Some 1710054000000%Z; Some 1710039600000%Z;
      Some 1730613600000%Z; Some 1730599200000%Z ].
Proof. reflexivity. Qed.

(** On UTC [setDate] goes back whole days of 86400000 ms, drops the
    fraction of a day count and gives an invalid date for NaN. *)
Example utc_back_30 :
  Binary64.Utc.back Binary64.Scenario.now 30
  = Some (Binary64.Scenario.now - 30 * 86400000)%Z.
Proof. reflexivity. Qed.

Example utc_back_fraction :
  Binary64.Utc.back Binary64.Scenario.now 0.5
  = Some (Binary64.Scenario.now - 1 * 86400000)%Z.
Proof. reflexivity. Qed.

Example utc_back_nan : Binary64.Utc.back Binary64.Scenario.now nan = None.
Proof. reflexivity. Qed.

Example parse_garbage : IsoDate.parse "yesterday" = None.
Proof. reflexivity. Qed.

(** 2023-12-31T23:00:00Z is in December 2023 in UTC and in January 2024 seven
    hours east of it. *)
Example local_year_month :
  (@getFullYear IsoDate.utc 1704063600000,
   @getMonth IsoDate.utc 1704063600000) = (2023%Z, 11%Z)
  /\ (@getFullYear (IsoDate.runtime 420) 1704063600000,
      @getMonth (IsoDate.runtime 420) 1704063600000) = (2024%Z, 0%Z).
Proof. split; reflexivity. Qed.

(** * Further properties of the code *)

(** ** Current stock: transactions that do not count, and monotonicity *)

Lemma signedSum_app (b i : string) (l l' : list Transaction) :
  Spec.signedSum b i (l ++ l')
  == Spec.signedSum b i l + Spec.signedSum b i l'.
Proof.
  unfold Spec.signedSum; rewrite filter_app, map_app.
  induction (map _ (filter _ l)) as [|c cs IH]; simpl; [ring|].
  rewrite IH; ring.
Qed.

Lemma contribution_untouched (b : string) (t : Transaction) :
  Spec.touches b t = false -> Spec.contribution b t == 0.
Proof.
  unfold Spec.touches, Spec.contribution; intros H.
  apply orb_false_elim in H; destruct H as [H Hto].
  apply orb_false_elim in H; destruct H as [Hid Hfrom].
  rewrite Hid, Hfrom, Hto, !andb_false_r; ring.
Qed.

Lemma signedSum_untouched (b i : string) (txs : list Transaction) :
  (forall t, In t txs -> t_itemId t = i -> Spec.touches b t = false) ->
  Spec.signedSum b i txs == 0.
Proof.
  unfold Spec.signedSum.
  induction txs as [|t txs IH]; intros H; simpl; [reflexivity|].
  assert (IH' : Spec.sumQ (map (Spec.contribution b)
                             (filter (fun t => String.eqb (t_itemId t) i) txs))
                == 0).
  { apply IH; intros u Hu; apply H; right; exact Hu. }
  destruct (String.eqb (t_itemId t) i) eqn:E; simpl; [|exact IH'].
  apply String.eqb_eq in E.
  rewrite IH', (contribution_untouched b t (H t (or_introl eq_refl) E)); ring.
Qed.

(** The stock of a branch is 0 for an item none of whose transactions names
    the branch; in particular for an item or a branch the ledger does not
    know. *)
Theorem getCurrentStock_unknown (db : DB) (b i : string) :
  (forall t, In t (transactions db) -> t_itemId t = i ->
             Spec.touches b t = false) ->
  getCurrentStock db b i == 0.
Proof.
  intros H; rewrite getCurrentStock_finish.
  rewrite (finish_compat _ 0 (signedSum_untouched b i _ H)); reflexivity.
Qed.

Lemma getCurrentStock_unknown_witness :
  getCurrentStock Scenario.scenario3 "b_2" "i_veg_tom" == 0.
Proof.
  apply (getCurrentStock_unknown Scenario.scenario3 "b_2" "i_veg_tom").
  intros t Ht _; simpl in Ht.
  destruct Ht as [<-|[<-|[<-|[]]]]; reflexivity.
Defined.

(** Recording a transaction of another item, or one that does not name the
    branch, leaves the stock of the branch and item as it was. *)
Theorem getCurrentStock_frame
    (db : DB) (rnd : string) (tx : Transaction) (b i : string) :
  t_itemId tx <> i \/ Spec.touches b tx = false ->
  getCurrentStock (snd (addTransaction rnd tx db)) b i
  = getCurrentStock db b i.
Proof.
  intros H; rewrite !getCurrentStock_finish, addTransaction_appends.
  apply finish_compat.
  rewrite signedSum_app.
  assert (E : Spec.signedSum b i [with_tx_id tx (id "t" rnd)] == 0).
  { apply signedSum_untouched; intros t [<-|[]] Hi; simpl in Hi.
    destruct H as [H|H]; [contradiction|exact H]. }
  rewrite E; ring.
Qed.

Lemma getCurrentStock_frame_witness :
  getCurrentStock
    (snd (addTransaction "k3x9q2a"
            (Scenario.use "i_meat_pork" "b_1" "2024-03-09T10:00:00.000Z" 4)
            Scenario.scenario3))
    "b_1" "i_veg_tom"
  = getCurrentStock Scenario.scenario3 "b_1" "i_veg_tom".
Proof.
  apply (getCurrentStock_frame Scenario.scenario3 "k3x9q2a"
           (Scenario.use "i_meat_pork" "b_1" "2024-03-09T10:00:00.000Z" 4)
           "b_1" "i_veg_tom").
  left; discriminate.
Defined.

Lemma Math_round_monotone (x y : Q) :
  x <= y -> JS.Math_round x <= JS.Math_round y.
Proof.
  intros H; unfold JS.Math_round.
  rewrite <- Zle_Qle; apply Qfloor_resp_le; lra.
Qed.

Lemma finish_monotone (x y : Q) : x <= y -> finish x <= finish y.
Proof.
  intros H; unfold finish.
  assert (R : JS.Math_round (x * 100) / 100 <= JS.Math_round (y * 100) / 100).
  { apply Qmult_le_compat_r; [|discriminate].
    apply Math_round_monotone; lra. }
  unfold JS.Math_max.
  destruct (Qle_bool 0 (JS.Math_round (x * 100) / 100)) eqn:Ex;
    destruct (Qle_bool 0 (JS.Math_round (y * 100) / 100)) eqn:Ey.
  - exact R.
  - apply Qle_bool_iff in Ex.
    assert (Hy : 0 <= JS.Math_round (y * 100) / 100) by lra.
    apply Qle_bool_iff in Hy; congruence.
  - apply Qle_bool_iff in Ey; exact Ey.
  - apply Qle_refl.
Qed.

Section StockMoves.

Variables (db : DB) (rnd : string) (tx : Transaction) (b : string).

Hypothesis at_branch : t_branchId tx = Some b.
Hypothesis nonneg : 0 <= t_qty tx.

Let db' : DB := snd (addTransaction rnd tx db).
Let i : string := t_itemId tx.

(** Recording a delivery never lowers the stock of the branch; recording a
    use or a wastage never raises it. *)
Theorem getCurrentStock_monotone :
  (t_type tx = "receive" ->
   getCurrentStock db b i <= getCurrentStock db' b i)
  /\ (t_type tx = "use" \/ t_type tx = "wastage" ->
      getCurrentStock db' b i <= getCurrentStock db b i).
Proof.
  assert (S : forall c,
             Spec.contribution b (with_tx_id tx (id "t" rnd)) == c ->
             Spec.signedSum b i (transactions db')
             == Spec.signedSum b i (transactions db) + c).
  { intros c Hc; unfold db'; rewrite addTransaction_appends, signedSum_app.
    unfold Spec.signedSum at 2; simpl.
    unfold i; rewrite String.eqb_refl; simpl; rewrite Hc; ring. }
  split.
  - intros Ht; rewrite !getCurrentStock_finish.
    apply finish_monotone.
    rewrite (S (t_qty tx)); [lra|].
    unfold Spec.contribution, Spec.is_type; simpl.
    rewrite Ht, at_branch; simpl; rewrite String.eqb_refl; simpl; ring.
  - intros Ht; rewrite !getCurrentStock_finish.
    apply finish_monotone.
    rewrite (S (- t_qty tx)); [lra|].
    unfold Spec.contribution, Spec.is_type; simpl.
    destruct Ht as [Ht|Ht]; rewrite Ht, at_branch; simpl;
      rewrite String.eqb_refl; simpl; ring.
Qed.

End StockMoves.

Lemma getCurrentStock_monotone_witness :
  let rcv := Scenario.receive "i_veg_tom" "b_1" "2024-03-09T08:00:00.000Z"
               (5 # 2) in
  let use := Scenario.use "i_veg_tom" "b_1" "2024-03-09T20:00:00.000Z" 40 in
  getCurrentStock Scenario.scenario3 "b_1" "i_veg_tom"
  <= getCurrentStock (snd (addTransaction "k3x9q2a" rcv Scenario.scenario3))
       "b_1" "i_veg_tom"
  /\ getCurrentStock (snd (addTransaction "k3x9q2a" use Scenario.scenario3))
       "b_1" "i_veg_tom"
     <= getCurrentStock Scenario.scenario3 "b_1" "i_veg_tom".
Proof.
  intros rcv use; split.
  - apply (proj1 (getCurrentStock_monotone Scenario.scenario3 "k3x9q2a" rcv
                    "b_1" eq_refl ltac:(vm_compute; discriminate))).
    reflexivity.
  - apply (proj2 (getCurrentStock_monotone Scenario.scenario3 "k3x9q2a" use
                    "b_1" eq_refl ltac:(vm_compute; discriminate))).
    left; reflexivity.
Defined.

(** ** What the daily entry form records *)

Lemma recorded_nil (w : World) : Daily.recorded w [] = w.
Proof.
  destruct w as [[bs its txs] b v c r d a]; unfold Daily.recorded; simpl.
  rewrite app_nil_r, Nat.add_0_r; reflexivity.
Qed.

Lemma recorded_app (w : World) (l1 l2 : list Transaction) :
  Daily.recorded (Daily.recorded w l1) l2 = Daily.recorded w (l1 ++ l2).
Proof.
  unfold Daily.recorded; simpl.
  rewrite <- app_assoc, length_app, Nat.add_assoc; reflexivity.
Qed.

Lemma stamped_recorded (w : World) (txs : list Transaction)
    (l : list Daily.Row) :
  forall n, Daily.stamped (Daily.recorded w txs) n l = Daily.stamped w n l.
Proof. induction l as [|r l IH]; intros n; simpl; [|rewrite IH]; reflexivity. Qed.

Lemma stamped_app (w : World) (l1 l2 : list Daily.Row) :
  forall n,
    Daily.stamped w n (l1 ++ l2)
    = Daily.stamped w n l1 ++ Daily.stamped w (n + List.length l1) l2.
Proof.
  induction l1 as [|r l1 IH]; intros n; simpl.
  - rewrite Nat.add_0_r; reflexivity.
  - rewrite IH, Nat.add_succ_r; reflexivity.
Qed.

Lemma stamped_length (w : World) (l : list Daily.Row) :
  forall n, List.length (Daily.stamped w n l) = List.length l.
Proof. induction l as [|r l IH]; intros n; simpl; [|rewrite IH]; reflexivity. Qed.

Lemma dailyTransaction_recorded (type notes itemId : string) (qty : Q)
    (w : World) :
  dailyTransaction type notes itemId qty w
  = (tt, Daily.recorded w
           [Daily.stamp w (w_drawn w)
              {| Daily.r_itemId := itemId; Daily.r_type := type;
                 Daily.r_notes := notes; Daily.r_qty := qty |}]).
Proof.
  unfold dailyTransaction, bind, nowISO, recordTransaction, ret,
    Daily.recorded; simpl.
  rewrite Nat.add_1_r; reflexivity.
Qed.

Lemma when_recorded (c : bool) (r : Daily.Row) (w : World) :
  positive (Daily.r_qty r) = c ->
  when c (dailyTransaction (Daily.r_type r) (Daily.r_notes r)
            (Daily.r_itemId r) (Daily.r_qty r)) w
  = (tt, Daily.recorded w
           (Daily.stamped w (w_drawn w)
              (filter (fun r => positive (Daily.r_qty r)) [r]))).
Proof.
  intros <-; unfold when; simpl.
  destruct (positive (Daily.r_qty r)); simpl.
  - rewrite dailyTransaction_recorded; destruct r; reflexivity.
  - unfold ret; rewrite recorded_nil; reflexivity.
Qed.

Lemma saveEntry_recorded (e : Entry) (w : World) :
  saveEntry e w
  = (tt, Daily.recorded w
           (Daily.stamped w (w_drawn w) (Daily.entryRows e))).
Proof.
  unfold saveEntry, bind.
  pose (r1 := {| Daily.r_itemId := e_itemId e; Daily.r_type := "receive";
                 Daily.r_notes := "Daily receive";
                 Daily.r_qty := e_received e |}).
  pose (r2 := {| Daily.r_itemId := e_itemId e; Daily.r_type := "use";
                 Daily.r_notes := "Daily use"; Daily.r_qty := e_used e |}).
  pose (r3 := {| Daily.r_itemId := e_itemId e; Daily.r_type := "wastage";
                 Daily.r_notes := "Wastage"; Daily.r_qty := e_wastage e |}).
  change (when (positive (e_received e)) _)
    with (when (positive (Daily.r_qty r1))
            (dailyTransaction (Daily.r_type r1) (Daily.r_notes r1)
               (Daily.r_itemId r1) (Daily.r_qty r1))).
  change (when (positive (e_used e)) _)
    with (when (positive (Daily.r_qty r2))
            (dailyTransaction (Daily.r_type r2) (Daily.r_notes r2)
               (Daily.r_itemId r2) (Daily.r_qty r2))).
  change (when (positive (e_wastage e)) _)
    with (when (positive (Daily.r_qty r3))
            (dailyTransaction (Daily.r_type r3) (Daily.r_notes r3)
               (Daily.r_itemId r3) (Daily.r_qty r3))).
  rewrite (when_recorded _ r1 w eq_refl).
  rewrite (when_recorded _ r2 _ eq_refl).
  rewrite (when_recorded _ r3 _ eq_refl).
  rewrite !recorded_app, !stamped_recorded.
  f_equal; f_equal.
  unfold Daily.entryRows; fold r1 r2 r3; simpl.
  destruct (positive (e_received e)), (positive (e_used e)),
    (positive (e_wastage e)); simpl;
    rewrite ?Nat.add_0_r; unfold Daily.stamp;
    repeat (f_equal; try lia).
Qed.

Lemma forEach_saveEntry_recorded (entryList : list Entry) :
  forall w : World,
    forEach saveEntry entryList w
    = (tt, Daily.recorded w
             (Daily.stamped w (w_drawn w) (Daily.rows entryList))).
Proof.
  induction entryList as [|e rest IH]; intros w; simpl.
  - unfold ret; rewrite recorded_nil; reflexivity.
  - unfold bind; rewrite saveEntry_recorded, IH.
    rewrite recorded_app, stamped_recorded; simpl w_drawn.
    rewrite stamped_length, stamped_app; reflexivity.
Qed.

Lemma saveAll_ledger (entryList : list Entry) (w : World) :
  transactions (w_db (snd (saveAll entryList w)))
  = transactions (w_db w)
    ++ Daily.stamped w (w_drawn w) (Daily.rows entryList)
  /\ items (w_db (snd (saveAll entryList w))) = items (w_db w)
  /\ branches (w_db (snd (saveAll entryList w))) = branches (w_db w).
Proof.
  unfold saveAll, bind; rewrite forEach_saveEntry_recorded; simpl.
  repeat split; reflexivity.
Qed.

(** [saveAll] records one transaction for every strictly positive quantity,
    entry by entry and received, used, wastage within an entry, each at the
    selected branch and dated by the clock; it changes neither items nor
    branches, shows one message and returns to the dashboard. *)
Theorem saveAll_records (entryList : list Entry) (w : World) :
  let w' := snd (saveAll entryList w) in
  transactions (w_db w')
  = transactions (w_db w)
    ++ Daily.stamped w (w_drawn w) (Daily.rows entryList)
  /\ items (w_db w') = items (w_db w)
  /\ branches (w_db w') = branches (w_db w)
  /\ w_drawn w' = (w_drawn w + List.length (Daily.rows entryList))%nat
  /\ w_alerts w'
     = w_alerts w
       ++ ["Daily entries saved (demo mode: local). In production backend, transactions will persist to server."]
  /\ w_view w' = "dashboard".
Proof.
  unfold saveAll, bind; rewrite forEach_saveEntry_recorded; simpl.
  rewrite stamped_length; repeat split; reflexivity.
Qed.






Lemma id_injective (prefix r1 r2 : string) :
  id prefix r1 = id prefix r2 -> r1 = r2.
Proof.
  unfold id; induction prefix as [|c p IH]; simpl; intros H.
  - injection H; trivial.
  - injection H; exact IH.
Qed.

Lemma stamped_ids (w : World) (l : list Daily.Row) :
  forall n,
    map t_id (Daily.stamped w n l)
    = map (fun k => id "t" (w_random w k)) (seq n (List.length l)).
Proof. induction l as [|r l IH]; intros n; simpl; [|rewrite IH]; reflexivity. Qed.

(** The transactions recorded by one [saveAll] get pairwise distinct ids
    as long as the random strings drawn for them are pairwise distinct. *)
Theorem saveAll_fresh_ids (entryList : list Entry) (w : World) :
  (forall j k : nat,
      (w_drawn w <= j < w_drawn w + List.length (Daily.rows entryList))%nat ->
      (w_drawn w <= k < w_drawn w + List.length (Daily.rows entryList))%nat ->
      w_random w j = w_random w k -> j = k) ->
  exists new : list Transaction,
    transactions (w_db (snd (saveAll entryList w)))
    = transactions (w_db w) ++ new
    /\ NoDup (map t_id new).
Proof.
  intros Inj.
  exists (Daily.stamped w (w_drawn w) (Daily.rows entryList)).
  split; [apply saveAll_ledger|].
  rewrite stamped_ids.
  apply Finite.Injective_map_NoDup_in; [|apply seq_NoDup].
  intros j k Hj Hk E.
  apply in_seq in Hj; apply in_seq in Hk.
  apply Inj; [exact Hj|exact Hk|].
  apply (id_injective "t"); exact E.
Qed.

Lemma saveAll_fresh_ids_witness :
  let entries :=
    [ {| e_itemId := "i_veg_tom"; e_received := 12; e_used := 7 # 2;
         e_wastage := 0 |} ] in
  exists new : list Transaction,
    transactions (w_db (snd (saveAll entries Scenario.freshWorld)))
    = transactions (w_db Scenario.freshWorld) ++ new
    /\ NoDup (map t_id new).
Proof.
  intros entries.
  apply (saveAll_fresh_ids entries Scenario.freshWorld).
  intros j k Hj Hk E.
  change (0 <= j < 2)%nat in Hj; change (0 <= k < 2)%nat in Hk.
  destruct j as [|[|j]]; destruct k as [|[|k]];
    try lia; try reflexivity; discriminate E.
Defined.

(** ** The handlers and the ledger *)

(** No handler rewrites or drops a recorded transaction: the transfer form
    and the daily entry form only append, adding and editing items leave
    the ledger alone; and neither form touches items or branches. *)
Theorem ledger_append_only (w : World) :
  (forall form : TransferForm,
      let db' := w_db (snd (createTransfer form w)) in
      extends (transactions db') (transactions (w_db w))
      /\ items db' = items (w_db w) /\ branches db' = branches (w_db w))
  /\ (forall entryList : list Entry,
         let db' := w_db (snd (saveAll entryList w)) in
         extends (transactions db') (transactions (w_db w))
         /\ items db' = items (w_db w) /\ branches db' = branches (w_db w))
  /\ (forall form : Item,
         transactions (w_db (snd (onAdd form w))) = transactions (w_db w))
  /\ (forall (it : Item) (form : ItemPatch),
         transactions (w_db (snd (save it form w))) = transactions (w_db w)).
Proof.
  split; [|split; [|split]].
  - intros form; unfold createTransfer.
    destruct (String.eqb (f_itemId form) EmptyString);
      [|destruct (String.eqb (f_branchFrom form) (f_branchTo form))]; simpl;
      (split; [|split; reflexivity]).
    + exists []; symmetry; apply app_nil_r.
    + exists []; symmetry; apply app_nil_r.
    + eexists; reflexivity.
  - intros entryList.
    destruct (saveAll_ledger entryList w) as (E & I & B).
    split; [eexists; exact E|split; assumption].
  - intros form; unfold onAdd.
    destruct (String.eqb (it_name form) EmptyString); reflexivity.
  - intros it form; reflexivity.
Qed.

(** A transfer form without item, or with the same branch on both sides, is
    refused: the state is unchanged, the form is kept and one message says
    why. *)
Theorem createTransfer_rejects (form : TransferForm) (w : World) :
  (f_itemId form = EmptyString ->
   fst (createTransfer form w) = form
   /\ w_db (snd (createTransfer form w)) = w_db w
   /\ w_alerts (snd (createTransfer form w)) = w_alerts w ++ ["Select item"])
  /\ (f_itemId form <> EmptyString ->
      f_branchFrom form = f_branchTo form ->
      fst (createTransfer form w) = form
      /\ w_db (snd (createTransfer form w)) = w_db w
      /\ w_alerts (snd (createTransfer form w))
         = w_alerts w ++ ["From and To cannot be same"]).
Proof.
  unfold createTransfer; split.
  - intros ->; simpl; repeat split.
  - intros Hi Hb.
    apply String.eqb_neq in Hi; rewrite Hi.
    apply String.eqb_eq in Hb; rewrite Hb.
    repeat split.
Qed.

Lemma createTransfer_rejects_witness :
  let none := {| f_branchFrom := "b_1"; f_branchTo := "b_2";
                 f_itemId := EmptyString; f_qty := 3;
                 f_notes := EmptyString |} in
  let same := {| f_branchFrom := "b_1"; f_branchTo := "b_1";
                 f_itemId := "i_veg_tom"; f_qty := 3;
                 f_notes := EmptyString |} in
  w_db (snd (createTransfer none Scenario.freshWorld))
  = w_db Scenario.freshWorld
  /\ w_db (snd (createTransfer same Scenario.freshWorld))
     = w_db Scenario.freshWorld.
Proof.
  intros none same; split.
  - apply (proj1 (createTransfer_rejects none Scenario.freshWorld) eq_refl).
  - apply (proj2 (createTransfer_rejects same Scenario.freshWorld)
             ltac:(discriminate) eq_refl).
Defined.

(** An accepted transfer shows first in the history of [TransfersView],
    with the branches, the item and the quantity of the form. *)
Theorem createTransfer_history (form : TransferForm) (w : World) :
  f_itemId form <> EmptyString ->
  f_branchFrom form <> f_branchTo form ->
  exists (ntx : Transaction) (older : list Transaction),
    history (w_db (snd (createTransfer form w))) = ntx :: older
    /\ older = history (w_db w)
    /\ t_id ntx = id "t" (w_random w (w_drawn w))
    /\ t_itemId ntx = f_itemId form
    /\ t_branchFrom ntx = Some (f_branchFrom form)
    /\ t_branchTo ntx = Some (f_branchTo form)
    /\ t_qty ntx = f_qty form
    /\ t_date ntx = w_clock w.
Proof.
  intros Hi Hb; unfold createTransfer.
  apply String.eqb_neq in Hi; rewrite Hi.
  apply String.eqb_neq in Hb; rewrite Hb.
  unfold history; simpl.
  rewrite filter_app, rev_app_distr; simpl.
  eexists; eexists; repeat split.
Qed.

Lemma createTransfer_history_witness :
  let form := {| f_branchFrom := "b_1"; f_branchTo := "b_2";
                 f_itemId := "i_veg_tom"; f_qty := 3;
                 f_notes := EmptyString |} in
  exists (ntx : Transaction) (older : list Transaction),
    history (w_db (snd (createTransfer form Scenario.freshWorld)))
    = ntx :: older
    /\ older = history (w_db Scenario.freshWorld)
    /\ t_id ntx = id "t" (w_random Scenario.freshWorld
                            (w_drawn Scenario.freshWorld))
    /\ t_itemId ntx = f_itemId form
    /\ t_branchFrom ntx = Some (f_branchFrom form)
    /\ t_branchTo ntx = Some (f_branchTo form)
    /\ t_qty ntx = f_qty form
    /\ t_date ntx = w_clock Scenario.freshWorld.
Proof.
  intros form.
  apply (createTransfer_history form Scenario.freshWorld);
    discriminate.
Defined.

(** ** Item maintenance: add, edit, remove *)

Lemma find_app_fresh {A : Type} (f : A -> bool) (l : list A) (x : A) :
  find f (l ++ [x])
  = match find f l with
    | Some y => Some y
    | None => if f x then Some x else None
    end.
Proof.
  induction l as [|y l IH]; simpl; [reflexivity|].
  destruct (f y); [reflexivity|exact IH].
Qed.

(** [onAdd] refuses a form without a name, with a message and nothing
    changed.  Otherwise it appends the item under a new id and clears the
    form; the item is then found under that id provided no older item
    already has it, and every other id finds what it found before. *)
Theorem onAdd_adds (form : Item) (w : World) :
  let newId := id "i" (w_random w (w_drawn w)) in
  let db' := w_db (snd (onAdd form w)) in
  (it_name form = EmptyString ->
   db' = w_db w /\ fst (onAdd form w) = form
   /\ w_alerts (snd (onAdd form w)) = w_alerts w ++ ["Please enter item name"])
  /\ (it_name form <> EmptyString ->
      items db' = items (w_db w) ++ [with_item_id form newId]
      /\ fst (onAdd form w) = blankItemForm
      /\ (forall j : string,
             j <> newId ->
             find (fun it => String.eqb (it_id it) j) (items db')
             = find (fun it => String.eqb (it_id it) j) (items (w_db w)))
      /\ ((forall it, In it (items (w_db w)) -> it_id it <> newId) ->
          find (fun it => String.eqb (it_id it) newId) (items db')
          = Some (with_item_id form newId))).
Proof.
  unfold onAdd; split.
  - intros ->; simpl; repeat split.
  - intros Hn; apply String.eqb_neq in Hn; rewrite Hn.
    assert (E : items (w_db (snd ((createItem form ;; ret blankItemForm)%app
                                    w)))
                = items (w_db w)
                  ++ [with_item_id form (id "i" (w_random w (w_drawn w)))])
      by reflexivity.
    split; [exact E|split; [reflexivity|]].
    rewrite E; clear E.
    generalize (id "i" (w_random w (w_drawn w))); intros newId.
    split.
    + intros j Hj; rewrite find_app_fresh; cbn [it_id with_item_id].
      apply not_eq_sym in Hj; apply String.eqb_neq in Hj; rewrite Hj.
      destruct (find _ (items (w_db w))); reflexivity.
    + intros Hfresh; rewrite find_app_fresh; cbn [it_id with_item_id].
      rewrite String.eqb_refl.
      destruct (find _ (items (w_db w))) as [y|] eqn:F; [|reflexivity].
      apply find_some in F; destruct F as [Hy Ey].
      apply String.eqb_eq in Ey; destruct (Hfresh y Hy Ey).
Qed.

Lemma onAdd_adds_witness :
  let form := {| it_id := EmptyString; it_name := "Basil";
                 it_category := "Vegetable"; it_unit := "kg";
                 it_minStock := 1; it_preferredOrder := 2;
                 it_leadTime := Some 1; it_unitCost := Some 80;
                 it_storage := "Fridge" |} in
  find (fun it => String.eqb (it_id it) "i_k3x9q2a")
       (items (w_db (snd (onAdd form Scenario.freshWorld))))
  = Some (with_item_id form "i_k3x9q2a")
  /\ w_db (snd (onAdd blankItemForm Scenario.freshWorld))
     = w_db Scenario.freshWorld.
Proof.
  intros form; split.
  - apply (proj2 (onAdd_adds form Scenario.freshWorld)).
    + discriminate.
    + intros it Hit; simpl in Hit.
      destruct Hit as [<-|[<-|[<-|[]]]]; discriminate.
  - apply (proj1 (onAdd_adds blankItemForm Scenario.freshWorld) eq_refl).
Defined.

Lemma spread_formOf (it : Item) : spread it (formOf it) = it.
Proof. destruct it as [i n c u m p [l|] [k|] s]; reflexivity. Qed.

Lemma map_spread_formOf (it : Item) (its : list Item) :
  (forall x, In x its -> it_id x = it_id it -> x = it) ->
  map (fun x => if String.eqb (it_id x) (it_id it)
                then spread x (formOf it) else x) its
  = its.
Proof.
  induction its as [|x its IH]; intros Huniq; simpl; [reflexivity|].
  rewrite IH by (intros y Hy; apply Huniq; right; exact Hy).
  destruct (String.eqb (it_id x) (it_id it)) eqn:E; [|reflexivity].
  apply String.eqb_eq in E.
  rewrite (Huniq x (or_introl eq_refl) E), spread_formOf; reflexivity.
Qed.

(** Editing keeps the number and the order of the items and leaves every
    item with another id untouched; a form that does not change the id, as
    the edit form never does, keeps all ids; and saving the edit form
    untouched changes nothing when the item is the only one with its id. *)
Theorem updateItem_keeps (itemId : string) (patch : ItemPatch) (db : DB) :
  List.length (items (updateItem itemId patch db)) = List.length (items db)
  /\ (forall it, In it (items db) -> it_id it <> itemId ->
                 In it (items (updateItem itemId patch db)))
  /\ (p_id patch = None \/ p_id patch = Some itemId ->
      map it_id (items (updateItem itemId patch db)) = map it_id (items db))
  /\ (forall (it : Item) (w : World),
         (forall x, In x (items (w_db w)) -> it_id x = it_id it -> x = it) ->
         w_db (snd (save it (formOf it) w)) = w_db w).
Proof.
  split; [|split; [|split]].
  - simpl; apply length_map.
  - intros it Hin Hid; simpl.
    apply in_map_iff; exists it; split; [|exact Hin].
    apply String.eqb_neq in Hid; rewrite Hid; reflexivity.
  - intros Hp; simpl; rewrite map_map.
    apply map_ext; intros it.
    destruct (String.eqb (it_id it) itemId) eqn:E; [|reflexivity].
    apply String.eqb_eq in E; simpl.
    destruct Hp as [-> | ->]; simpl; congruence.
  - intros it w Huniq.
    unfold save, bind, setDb, setView, updateItem; simpl.
    rewrite (map_spread_formOf it (items (w_db w)) Huniq).
    destruct (w_db w); reflexivity.
Qed.

Lemma updateItem_keeps_witness :
  let tomato := hd blankItemForm defaultItems in
  let rename :=
    {| p_id := None; p_name := Some "Roma tomato"; p_category := None;
       p_unit := None; p_minStock := None; p_preferredOrder := None;
       p_leadTime := None; p_unitCost := None; p_storage := None |} in
  map it_id (items (updateItem "i_veg_tom" rename initialState))
  = map it_id (items initialState)
  /\ w_db (snd (save tomato (formOf tomato) Scenario.freshWorld))
     = w_db Scenario.freshWorld.
Proof.
  intros tomato rename; split.
  - apply (proj1 (proj2 (proj2
             (updateItem_keeps "i_veg_tom" rename initialState)))).
    left; reflexivity.
  - apply (proj2 (proj2 (proj2
             (updateItem_keeps "i_veg_tom" rename initialState)))
             tomato Scenario.freshWorld).
    intros x Hx E; simpl in Hx.
    destruct Hx as [<-|[<-|[<-|[]]]];
      [reflexivity|discriminate E|discriminate E].
Defined.

Lemma find_filter_other (itemId j : string) (l : list Item) :
  j <> itemId ->
  find (fun it => String.eqb (it_id it) j)
       (filter (fun it => negb (String.eqb (it_id it) itemId)) l)
  = find (fun it => String.eqb (it_id it) j) l.
Proof.
  intros Hj; induction l as [|x l IH]; simpl; [reflexivity|].
  destruct (String.eqb (it_id x) itemId) eqn:E; simpl.
  - apply String.eqb_eq in E.
    assert (F : String.eqb (it_id x) j = false)
      by (apply String.eqb_neq; congruence).
    rewrite F; exact IH.
  - destruct (String.eqb (it_id x) j); [reflexivity|exact IH].
Qed.

Lemma find_filter_removed (itemId : string) (l : list Item) :
  find (fun it => String.eqb (it_id it) itemId)
       (filter (fun it => negb (String.eqb (it_id it) itemId)) l)
  = None.
Proof.
  induction l as [|x l IH]; simpl; [reflexivity|].
  destruct (String.eqb (it_id x) itemId) eqn:E; simpl; [exact IH|].
  rewrite E; exact IH.
Qed.

(** After [removeItem] no item is found under the removed id, so its order
    suggestion is 0 although its stock history remains; every other item is
    found as before and gets the same suggestion as before. *)
Theorem removeItem_forgets {runtime : DateRuntime}
    (itemId : string) (db : DB) (now : Z) (b : string) :
  find (fun it => String.eqb (it_id it) itemId) (items (removeItem itemId db))
  = None
  /\ suggestedOrderQty (removeItem itemId db) now b itemId = 0%Z
  /\ (forall j : string,
         j <> itemId ->
         find (fun it => String.eqb (it_id it) j)
              (items (removeItem itemId db))
         = find (fun it => String.eqb (it_id it) j) (items db)
         /\ suggestedOrderQty (removeItem itemId db) now b j
            = suggestedOrderQty db now b j).
Proof.
  split; [apply find_filter_removed|split].
  - unfold suggestedOrderQty; simpl.
    rewrite find_filter_removed; reflexivity.
  - intros j Hj; split; [apply find_filter_other, Hj|].
    unfold suggestedOrderQty; simpl.
    rewrite (find_filter_other itemId j (items db) Hj); reflexivity.
Qed.

Lemma removeItem_forgets_witness :
  suggestedOrderQty (runtime := IsoDate.utc)
    (removeItem "i_meat_pork" Scenario.scenario3) Scenario.now
    "b_1" "i_veg_tom"
  = suggestedOrderQty (runtime := IsoDate.utc) Scenario.scenario3
      Scenario.now "b_1" "i_veg_tom".
Proof.
  apply (proj2 (proj2 (proj2
           (removeItem_forgets (runtime := IsoDate.utc) "i_meat_pork"
              Scenario.scenario3 Scenario.now "b_1")) "i_veg_tom"
           ltac:(discriminate))).
Defined.

(** ** Order suggestions and the dashboard *)

Lemma suggestedOrderQty_nonneg {runtime : DateRuntime}
    (db : DB) (now : Z) (b i : string) :
  (0 <= suggestedOrderQty db now b i)%Z.
Proof.
  unfold suggestedOrderQty.
  destruct (find _ (items db)); [|lia].
  cbv zeta.
  destruct (0 <? _)%Z eqn:E; [apply Z.ltb_lt in E|]; lia.
Qed.

(** The dashboard has one row per item, in the order of the items; a row
    is flagged low exactly when the stock is below the minimum of the
    item, which never happens for a minimum of 0 or less; and no row shows
    a negative stock or suggestion. *)
Theorem lowList_rows {runtime : DateRuntime}
    (db : DB) (now : Z) (b : string) :
  map l_item (lowList db now b) = items db
  /\ Forall (fun r =>
               l_cur r = getCurrentStock db b (it_id (l_item r))
               /\ 0 <= l_cur r
               /\ (l_low r = true <-> l_cur r < it_minStock (l_item r))
               /\ (it_minStock (l_item r) <= 0 -> l_low r = false)
               /\ (0 <= l_suggested r)%Z)
            (lowList db now b).
Proof.
  unfold lowList; rewrite filter_true; split.
  - rewrite map_map; simpl; apply map_id.
  - apply Forall_forall; intros r Hr.
    apply in_map_iff in Hr; destruct Hr as [it [<- _]]; simpl.
    pose proof (Math_max_nonneg
                  (JS.Math_round
                     (stockTotal (transactions db) b (it_id it) * 100) / 100))
      as Hs.
    fold (getCurrentStock db b (it_id it)) in Hs.
    assert (L : negb (Qle_bool (it_minStock it)
                        (getCurrentStock db b (it_id it))) = true
                <-> getCurrentStock db b (it_id it) < it_minStock it).
    { destruct (Qle_bool (it_minStock it) (getCurrentStock db b (it_id it)))
        eqn:E; simpl; split; intros H; try discriminate H; try reflexivity.
      - apply Qle_bool_iff in E; lra.
      - apply Qnot_le_lt; intros C; apply Qle_bool_iff in C; congruence. }
    split; [reflexivity|split; [exact Hs|split; [exact L|split]]].
    + intros Hm; apply not_true_is_false; intros E.
      apply L in E; lra.
    + apply suggestedOrderQty_nonneg.
Qed.

(** ** The report: the top ten and ledgers without use *)

Lemma StronglySorted_app_le {A : Type} (R : A -> A -> Prop)
    (l1 l2 : list A) :
  StronglySorted R (l1 ++ l2) ->
  forall x y, In x l1 -> In y l2 -> R x y.
Proof.
  induction l1 as [|a l1 IH]; intros S x y Hx Hy; [destruct Hx|].
  simpl in S; inversion S as [|? ? S' F]; subst.
  destruct Hx as [<-|Hx].
  - rewrite Forall_forall in F; apply F, in_or_app; right; exact Hy.
  - apply (IH S' x y Hx Hy).
Qed.

(** "Top Used Items" shows at most ten rows, the first ones of the report,
    and no row left out was used more than a row shown. *)
Theorem topUsed_are_top {runtime : DateRuntime}
    (db : DB) (b rangeType : string) (year month : Z) :
  let rows := itemsWithUsage db b rangeType year month in
  let top := topUsed db b rangeType year month in
  (List.length top <= 10)%nat
  /\ List.length top = Nat.min 10 (List.length (items db))
  /\ rows = top ++ skipn 10 rows
  /\ forall r r', In r top -> In r' (skipn 10 rows) ->
                  usedQty r' <= usedQty r.
Proof.
  intros rows top; unfold top, topUsed; fold rows.
  split; [apply firstn_le_length|split; [|split]].
  - rewrite length_firstn; f_equal.
    unfold rows, itemsWithUsage.
    rewrite (Permutation_length (sort_Permutation usedQty _)).
    apply length_map.
  - symmetry; apply firstn_skipn.
  - apply (StronglySorted_app_le (fun r1 r2 => usedQty r2 <= usedQty r1)).
    rewrite firstn_skipn; apply (sort_StronglySorted usedQty).
Qed.

Section StableSort.

Context {A : Type} (key : A -> Q).

(** Rows with one and the same key stay in their order. *)
Lemma sort_constant (l : list A) (c : Q) :
  (forall x, In x l -> key x == c) ->
  sort (fun a b => key b - key a) l = l.
Proof.
  induction l as [|x l IH]; intros H; [reflexivity|].
  change (sort (fun a b => key b - key a) (x :: l))
    with (insert (fun a b => key b - key a) x
            (sort (fun a b => key b - key a) l)).
  rewrite IH by (intros y Hy; apply H; right; exact Hy).
  destruct l as [|y l]; simpl; [reflexivity|].
  assert (E : Qle_bool (key y - key x) 0 = true).
  { apply Qle_bool_iff.
    rewrite (H x (or_introl eq_refl)), (H y (or_intror (or_introl eq_refl))).
    lra. }
  rewrite E; reflexivity.
Qed.

End StableSort.

Lemma periodUsedQty_without_use {runtime : DateRuntime}
    (b : string) (txs : list Transaction) (year : Z) (month : option Z)
    (it : Item) :
  (forall t, In t txs -> t_type t <> "use") ->
  Spec.periodUsedQty b txs year month it == 0.
Proof.
  unfold Spec.periodUsedQty, Spec.total; intros H.
  induction txs as [|t txs IH]; simpl; [reflexivity|].
  assert (E : Spec.is_type "use" t = false).
  { apply String.eqb_neq, H; left; reflexivity. }
  rewrite E, andb_false_r; simpl.
  apply IH; intros u Hu; apply H; right; exact Hu.
Qed.

(** On a ledger without use transactions, the empty ledger included, the
    report lists the items in their own order, each with quantity 0, and
    the total cost is 0. *)
Theorem report_without_use {runtime : DateRuntime}
    (db : DB) (b rangeType : string) (year month : Z) :
  (forall t, In t (transactions db) -> t_type t <> "use") ->
  let rows := itemsWithUsage db b rangeType year month in
  map item rows = items db
  /\ Forall (fun r => usedQty r == 0) rows
  /\ totalCost db b rangeType year month == 0.
Proof.
  intros H rows.
  set (mk := fun it =>
               {| item := it;
                  usedQty :=
                    fold_left (usageStep b rangeType year month it)
                      (transactions db) 0 |}).
  assert (Z0 : forall r, In r (map mk (items db)) -> usedQty r == 0).
  { intros r Hr; apply in_map_iff in Hr; destruct Hr as [it [<- _]]; simpl.
    rewrite fold_usageStep, (periodUsedQty_without_use b _ year _ it H).
    ring. }
  assert (E : rows = map mk (items db)).
  { apply (sort_constant usedQty (map mk (items db)) 0 Z0). }
  split; [|split].
  - rewrite E, map_map; simpl; apply map_id.
  - rewrite E; apply Forall_forall; exact Z0.
  - unfold totalCost; fold rows; rewrite fold_cost, E.
    assert (C : forall l : list ItemUsage,
               (forall r, In r l -> usedQty r == 0) ->
               Spec.sumQ (map (fun r => usedQty r * Spec.unitCostOf (item r))
                              l) == 0).
    { induction l as [|r l IH]; intros Hl; simpl; [reflexivity|].
      rewrite (Hl r (or_introl eq_refl)), IH
        by (intros y Hy; apply Hl; right; exact Hy).
      ring. }
    rewrite (C _ Z0); ring.
Qed.

Lemma report_without_use_witness :
  map item (itemsWithUsage (runtime := IsoDate.utc) initialState
              "b_1" "monthly" 2024 3)
  = items initialState
  /\ Forall (fun r => usedQty r == 0)
       (itemsWithUsage (runtime := IsoDate.utc) initialState
          "b_1" "monthly" 2024 3)
  /\ totalCost (runtime := IsoDate.utc) initialState "b_1" "monthly" 2024 3
     == 0.
Proof.
  apply (report_without_use (runtime := IsoDate.utc) initialState
           "b_1" "monthly" 2024 3).
  intros t [].
Defined.

(** ** Daily records of a day without transactions *)

(** A day on which the item has no transaction gets the record with every
    field 0. *)
Theorem calcDailyRecord_empty_day (db : DB) (b i dateISO : string) :
  (forall t, In t (transactions db) -> t_itemId t = i ->
             Spec.day t <> JS.slice dateISO 0 10) ->
  calcDailyRecord db b i dateISO = emptyRecord.
Proof.
  intros H; unfold calcDailyRecord.
  assert (E : filter (fun t => String.eqb (t_itemId t) i
                               && String.eqb (JS.slice (t_date t) 0 10)
                                    (JS.slice dateISO 0 10))
                     (transactions db) = []).
  { induction (transactions db) as [|t txs IH]; simpl; [reflexivity|].
    destruct (String.eqb (t_itemId t) i) eqn:Ei; simpl.
    - apply String.eqb_eq in Ei.
      pose proof (H t (or_introl eq_refl) Ei) as Hd.
      apply String.eqb_neq in Hd; unfold Spec.day in Hd; rewrite Hd.
      apply IH; intros u Hu; apply H; right; exact Hu.
    - apply IH; intros u Hu; apply H; right; exact Hu. }
  rewrite E; reflexivity.
Qed.

Lemma calcDailyRecord_empty_day_witness :
  calcDailyRecord Scenario.scenario3 "b_1" "i_veg_tom"
    "2024-03-05T12:00:00.000Z" = emptyRecord.
Proof.
  apply (calcDailyRecord_empty_day Scenario.scenario3 "b_1" "i_veg_tom"
           "2024-03-05T12:00:00.000Z").
  intros t Ht _; simpl in Ht.
  destruct Ht as [<-|[<-|[<-|[]]]]; vm_compute; discriminate.
Defined.

(** ** Usage history *)

Lemma append_nil_r (s : string) : (s ++ EmptyString)%string = s.
Proof. induction s as [|c s IH]; simpl; [|rewrite IH]; reflexivity. Qed.

Lemma append_snoc (cur : string) (c : ascii) (s : string) :
  ((cur ++ String c EmptyString) ++ s)%string = (cur ++ String c s)%string.
Proof. induction cur as [|x cur IH]; simpl; [|rewrite IH]; reflexivity. Qed.

(** A piece without ['|'] is read through to its end. *)
Lemma split_bars_piece (a : string) :
  no_bar a = true ->
  forall rest cur : string,
    split_bars (a ++ rest) cur = split_bars rest (cur ++ a).
Proof.
  induction a as [|c a IH]; intros Ha rest cur; simpl.
  - rewrite append_nil_r; reflexivity.
  - simpl in Ha; apply andb_prop in Ha; destruct Ha as [Hc Ha].
    apply negb_true_iff in Hc; rewrite Hc; simpl.
    rewrite <- (append_snoc cur c a), <- (IH Ha rest).
    destruct (a ++ rest)%string eqn:E; [|reflexivity].
    destruct a; [|discriminate E]; simpl in E; subst rest.
    reflexivity.
Qed.

Lemma split_usageKey (b i d : string) :
  no_bar b = true -> no_bar i = true -> no_bar d = true ->
  split_bars (usageKey (Some b) i d) EmptyString = [b; i; d].
Proof.
  intros Hb Hi Hd; unfold usageKey, template.
  rewrite (split_bars_piece b Hb); simpl.
  rewrite (split_bars_piece i Hi); simpl.
  rewrite <- (append_nil_r d) at 1.
  rewrite (split_bars_piece d Hd); reflexivity.
Qed.

Lemma usageKey_injective (b i d b' i' d' : string) :
  no_bar b = true -> no_bar i = true -> no_bar d = true ->
  no_bar b' = true -> no_bar i' = true -> no_bar d' = true ->
  usageKey (Some b) i d = usageKey (Some b') i' d' ->
  b = b' /\ i = i' /\ d = d'.
Proof.
  intros Hb Hi Hd Hb' Hi' Hd' E.
  pose proof (split_usageKey b i d Hb Hi Hd) as S.
  rewrite E, (split_usageKey b' i' d' Hb' Hi' Hd') in S.
  injection S; auto.
Qed.

Section ObjFacts.

Context {V : Type}.

Lemma obj_get_set_same (k : string) (v : V) (o : Obj V) :
  obj_get k (obj_set k v o) = Some v.
Proof.
  induction o as [|[k' v'] o IH]; simpl.
  - rewrite String.eqb_refl; reflexivity.
  - destruct (String.eqb k' k) eqn:E; simpl.
    + rewrite String.eqb_refl; reflexivity.
    + rewrite E; exact IH.
Qed.

Lemma obj_get_set_other (k k' : string) (v : V) (o : Obj V) :
  k <> k' -> obj_get k' (obj_set k v o) = obj_get k' o.
Proof.
  intros H; induction o as [|[k0 v0] o IH]; simpl.
  - apply String.eqb_neq in H; rewrite H; reflexivity.
  - destruct (String.eqb k0 k) eqn:E; simpl.
    + apply String.eqb_eq in E; subst k0.
      apply String.eqb_neq in H; rewrite H; reflexivity.
    + destruct (String.eqb k0 k'); [reflexivity|exact IH].
Qed.

Lemma obj_set_set (k : string) (v v' : V) (o : Obj V) :
  obj_set k v (obj_set k v' o) = obj_set k v o.
Proof.
  induction o as [|[k0 v0] o IH]; simpl.
  - rewrite String.eqb_refl; reflexivity.
  - destruct (String.eqb k0 k) eqn:E; simpl.
    + rewrite String.eqb_refl; reflexivity.
    + rewrite E, IH; reflexivity.
Qed.

Lemma keys_set (k k' : string) (v : V) (o : Obj V) :
  In k' (keys (obj_set k v o)) <-> k' = k \/ In k' (keys o).
Proof.
  unfold keys; induction o as [|[k0 v0] o IH]; simpl.
  - intuition.
  - destruct (String.eqb k0 k) eqn:E; simpl.
    + apply String.eqb_eq in E; subst k0; intuition.
    + rewrite IH; intuition.
Qed.

Lemma existsb_keys (k : string) (o : Obj V) :
  existsb (fun k' => String.eqb k' k) (keys o)
  = match obj_get k o with
    | Some _ => true
    | None => false
    end.
Proof.
  unfold keys; induction o as [|[k0 v0] o IH]; simpl; [reflexivity|].
  destruct (String.eqb k0 k); [reflexivity|exact IH].
Qed.

End ObjFacts.

Lemma historyStep_direct (usageMap : Obj Q)
    (result : Obj (Obj (list DayQty))) (b i d : string) :
  no_bar b = true -> no_bar i = true -> no_bar d = true ->
  let k := usageKey (Some b) i d in
  let ofBranch :=
    match obj_get b result with Some o => o | None => [] end in
  let ofItem :=
    match obj_get i ofBranch with Some a => a | None => [] end in
  historyStep usageMap result k
  = obj_set b
      (obj_set i
         (ofItem ++ [{| dq_day := Some d;
                        dq_qty := JS.non_null_or (obj_get k usageMap) 0 |}])
         ofBranch)
      result.
Proof.
  intros Hb Hi Hd k ofBranch ofItem.
  unfold historyStep, k; rewrite (split_usageKey b i d Hb Hi Hd).
  cbn [nth_error template].
  unfold ofItem, ofBranch; clear ofItem ofBranch.
  destruct (obj_get b result) as [o|] eqn:Eb.
  - rewrite ?Eb.
    destruct (obj_get i o) as [a|] eqn:Ei.
    + rewrite ?Ei; reflexivity.
    + rewrite obj_get_set_same, obj_set_set; reflexivity.
  - rewrite obj_get_set_same; cbn [obj_get obj_set].
    rewrite !String.eqb_refl; cbn [obj_set].
    rewrite ?String.eqb_refl, obj_set_set; reflexivity.
Qed.

Lemma usageKey_eqb (b i d b' i' d' : string) :
  no_bar b = true -> no_bar i = true -> no_bar d = true ->
  no_bar b' = true -> no_bar i' = true -> no_bar d' = true ->
  String.eqb (usageKey (Some b') i' d') (usageKey (Some b) i d)
  = String.eqb b' b && String.eqb i' i && String.eqb d' d.
Proof.
  intros Hb Hi Hd Hb' Hi' Hd'.
  destruct (String.eqb_spec (usageKey (Some b') i' d') (usageKey (Some b) i d))
    as [E|N].
  - destruct (usageKey_injective _ _ _ _ _ _ Hb' Hi' Hd' Hb Hi Hd E)
      as (-> & -> & ->).
    rewrite !String.eqb_refl; reflexivity.
  - destruct (String.eqb_spec b' b) as [->|]; [|reflexivity].
    destruct (String.eqb_spec i' i) as [->|]; [|reflexivity].
    destruct (String.eqb_spec d' d) as [->|]; [|reflexivity].
    contradiction N; reflexivity.
Qed.

Lemma historyStep_qty (usageMap : Obj Q) (result : Obj (Obj (list DayQty)))
    (b i d b' i' d' : string) :
  no_bar b = true -> no_bar i = true -> no_bar d = true ->
  no_bar b' = true -> no_bar i' = true -> no_bar d' = true ->
  historyQty (historyStep usageMap result (usageKey (Some b') i' d')) b i d
  = match historyQty result b i d with
    | Some x => Some x
    | None =>
        if String.eqb (usageKey (Some b') i' d') (usageKey (Some b) i d)
        then Some (JS.non_null_or
                     (obj_get (usageKey (Some b') i' d') usageMap) 0)
        else None
    end.
Proof.
  intros Hb Hi Hd Hb' Hi' Hd'.
  rewrite (historyStep_direct usageMap result b' i' d' Hb' Hi' Hd').
  rewrite (usageKey_eqb b i d b' i' d' Hb Hi Hd Hb' Hi' Hd').
  cbv zeta; unfold historyQty.
  destruct (String.eqb_spec b' b) as [->|Nb]; simpl.
  - rewrite obj_get_set_same.
    destruct (String.eqb_spec i' i) as [->|Ni]; simpl.
    + rewrite obj_get_set_same, find_app_fresh; simpl.
      destruct (obj_get b result) as [o|]; simpl;
        [destruct (obj_get i o) as [a|]; simpl; [destruct (find _ a)|]|];
        destruct (String.eqb d' d); reflexivity.
    + rewrite (obj_get_set_other i' i) by exact Ni.
      destruct (obj_get b result) as [o|]; simpl; [|reflexivity].
      destruct (obj_get i o) as [a|]; [|reflexivity].
      destruct (find _ a); reflexivity.
  - rewrite (obj_get_set_other b' b) by exact Nb.
    destruct (obj_get b result) as [o|]; [|reflexivity].
    destruct (obj_get i o) as [a|]; [|reflexivity].
    destruct (find _ a); reflexivity.
Qed.

Lemma fold_historyStep_qty (usageMap : Obj Q) (b i d : string)
    (ks : list string) :
  no_bar b = true -> no_bar i = true -> no_bar d = true ->
  Forall plainKey ks ->
  forall result : Obj (Obj (list DayQty)),
    historyQty (fold_left (historyStep usageMap) ks result) b i d
    = match historyQty result b i d with
      | Some x => Some x
      | None =>
          if existsb (fun k => String.eqb k (usageKey (Some b) i d)) ks
          then Some (JS.non_null_or
                       (obj_get (usageKey (Some b) i d) usageMap) 0)
          else None
      end.
Proof.
  intros Hb Hi Hd F; induction F as [|k ks Hk _ IH]; intros result; simpl.
  - destruct (historyQty result b i d); reflexivity.
  - destruct Hk as (b' & i' & d' & Hb' & Hi' & Hd' & ->).
    rewrite IH, (historyStep_qty usageMap result b i d b' i' d')
      by assumption.
    destruct (historyQty result b i d); [reflexivity|].
    destruct (String.eqb_spec (usageKey (Some b') i' d')
                              (usageKey (Some b) i d)) as [E|]; simpl;
      [rewrite E|]; reflexivity.
Qed.

Section UsageMap.

Variables branchIdFilter itemIdFilter : option string.

Let step := usageMapStep branchIdFilter itemIdFilter.
Let counts := counted branchIdFilter itemIdFilter.

Lemma usageMapStep_get (usageMap : Obj Q) (t : Transaction) (k : string) :
  obj_get k (step usageMap t)
  = if counts t && String.eqb (keyOf t) k
    then Some (JS.num_or (obj_get k usageMap) 0 + t_qty t)
    else obj_get k usageMap.
Proof.
  unfold step, counts, usageMapStep, counted, keyOf, Spec.day.
  destruct (String.eqb (t_type t) "use" || String.eqb (t_type t) "wastage");
    simpl; [|reflexivity].
  destruct (filtered_out branchIdFilter (t_branchId t)); simpl;
    [reflexivity|].
  destruct (filtered_out itemIdFilter (Some (t_itemId t))); simpl;
    [reflexivity|].
  destruct (String.eqb_spec
              (usageKey (t_branchId t) (t_itemId t)
                 (JS.slice (t_date t) 0 10)) k) as [<-|N].
  - apply obj_get_set_same.
  - apply obj_get_set_other, N.
Qed.

Lemma usageMapStep_keys (usageMap : Obj Q) (t : Transaction) (k : string) :
  In k (keys (step usageMap t)) ->
  In k (keys usageMap) \/ (counts t = true /\ k = keyOf t).
Proof.
  unfold step, counts, usageMapStep, counted, keyOf, Spec.day.
  destruct (String.eqb (t_type t) "use" || String.eqb (t_type t) "wastage");
    simpl; [|left; assumption].
  destruct (filtered_out branchIdFilter (t_branchId t)); simpl;
    [left; assumption|].
  destruct (filtered_out itemIdFilter (Some (t_itemId t))); simpl;
    [left; assumption|].
  intros H; apply keys_set in H; destruct H as [->|H];
    [right; split; reflexivity|left; exact H].
Qed.

Lemma fold_usageMap_keys (P : string -> Prop) (txs : list Transaction) :
  (forall t, In t txs -> counts t = true -> P (keyOf t)) ->
  forall usageMap : Obj Q,
    Forall P (keys usageMap) ->
    Forall P (keys (fold_left step txs usageMap)).
Proof.
  induction txs as [|t txs IH]; intros H usageMap F; simpl; [exact F|].
  apply IH; [intros u Hu; apply H; right; exact Hu|].
  apply Forall_forall; intros k Hk.
  apply usageMapStep_keys in Hk; destruct Hk as [Hk|[Hc ->]].
  - rewrite Forall_forall in F; apply F, Hk.
  - apply H; [left; reflexivity|exact Hc].
Qed.

(** What the map holds under a key: nothing if no counted transaction has
    the key, else their total on top of what was there. *)
Lemma fold_usageMap_get (k : string) (txs : list Transaction) :
  forall usageMap : Obj Q,
    let group := filter (fun t => counts t && String.eqb (keyOf t) k) txs in
    match obj_get k (fold_left step txs usageMap) with
    | None => obj_get k usageMap = None /\ group = []
    | Some v =>
        v == JS.num_or (obj_get k usageMap) 0 + Spec.total t_qty group
        /\ (obj_get k usageMap = None -> group <> [])
    end.
Proof.
  induction txs as [|t txs IH]; intros usageMap; simpl.
  - destruct (obj_get k usageMap) as [v|]; simpl.
    + split; [|discriminate].
      unfold Spec.total; simpl.
      rewrite (num_or_finite v); ring.
    + split; reflexivity.
  - specialize (IH (step usageMap t)); cbv zeta in IH.
    rewrite usageMapStep_get in IH.
    destruct (counts t && String.eqb (keyOf t) k); simpl.
    + destruct (obj_get k (fold_left step txs (step usageMap t))) as [v|].
      * destruct IH as [E _]; split; [|discriminate].
        rewrite E, num_or_finite; unfold Spec.total; simpl; ring.
      * destruct IH as [E _]; discriminate E.
    + exact IH.
Qed.

End UsageMap.

Lemma plain_no_bar (s : string) : plain s = true -> no_bar s = true.
Proof. unfold plain; intros H; apply andb_prop in H; apply H. Qed.

(** The history holds, for a branch, an item and a day, the total quantity
    of the use and wastage transactions of that branch, item and day that
    pass the filters, and nothing when there is none; this for ids and days
    free of ['|'], the separator of the keys. *)
Theorem computeUsageHistory_totals (db : DB)
    (branchIdFilter itemIdFilter : option string) (b i d : string) :
  plainLedger branchIdFilter itemIdFilter (transactions db) ->
  plain b = true -> plain i = true -> no_bar d = true ->
  let group :=
    usageGroup branchIdFilter itemIdFilter b i d (transactions db) in
  match historyQty (computeUsageHistory db branchIdFilter itemIdFilter)
          b i d with
  | None => group = []
  | Some q => group <> [] /\ q == Spec.total t_qty group
  end.
Proof.
  intros PL Pb Pi Hd group.
  pose proof (plain_no_bar b Pb) as Hb.
  pose proof (plain_no_bar i Pi) as Hi.
  set (k := usageKey (Some b) i d).
  set (usageMap := usageMapOf db branchIdFilter itemIdFilter).
  assert (G : filter (fun t => counted branchIdFilter itemIdFilter t
                               && String.eqb (keyOf t) k)
                     (transactions db) = group).
  { apply filter_ext_in; intros t Ht.
    destruct (counted branchIdFilter itemIdFilter t) eqn:C; [|reflexivity].
    destruct (PL t Ht C) as (P1 & P2 & P3); simpl.
    apply (usageKey_eqb b i d (template (t_branchId t)) (t_itemId t)
             (Spec.day t) Hb Hi Hd (plain_no_bar _ P1) (plain_no_bar _ P2)
             P3). }
  assert (K : Forall plainKey (keys usageMap)).
  { apply fold_usageMap_keys; [|constructor].
    intros t Ht C; destruct (PL t Ht C) as (P1 & P2 & P3).
    exists (template (t_branchId t)), (t_itemId t), (Spec.day t).
    repeat split; try assumption; apply plain_no_bar; assumption. }
  assert (Q : historyQty (computeUsageHistory db branchIdFilter itemIdFilter)
                b i d = obj_get k usageMap).
  { unfold computeUsageHistory; fold usageMap.
    rewrite (fold_historyStep_qty usageMap b i d (keys usageMap) Hb Hi Hd K).
    fold k; simpl; rewrite existsb_keys.
    destruct (obj_get k usageMap); reflexivity. }
  rewrite Q.
  pose proof (fold_usageMap_get branchIdFilter itemIdFilter k
                (transactions db) []) as F.
  cbv zeta in F; rewrite G in F; fold usageMap in F.
  unfold usageMapOf in usageMap; fold usageMap in F.
  destruct (obj_get k usageMap) as [v|].
  - destruct F as [E N]; split; [apply N; reflexivity|].
    rewrite E; simpl; ring.
  - apply F.
Qed.

Lemma computeUsageHistory_totals_witness :
  match historyQty (computeUsageHistory Scenario.scenario3 None None)
          "b_1" "i_veg_tom" "2024-03-04" with
  | None =>
      usageGroup None None "b_1" "i_veg_tom" "2024-03-04"
        (transactions Scenario.scenario3) = []
  | Some q =>
      usageGroup None None "b_1" "i_veg_tom" "2024-03-04"
        (transactions Scenario.scenario3) <> []
      /\ q == Spec.total t_qty
                (usageGroup None None "b_1" "i_veg_tom" "2024-03-04"
                   (transactions Scenario.scenario3))
  end.
Proof.
  apply (computeUsageHistory_totals Scenario.scenario3 None None
           "b_1" "i_veg_tom" "2024-03-04").
  - intros t Ht C; simpl in Ht.
    destruct Ht as [<-|[<-|[<-|[]]]]; repeat split; reflexivity.
  - reflexivity.
  - reflexivity.
  - reflexivity.
Defined.

Lemma keys_set_NoDup {V : Type} (k : string) (v : V) (o : Obj V) :
  NoDup (keys o) -> NoDup (keys (obj_set k v o)).
Proof.
  unfold keys; induction o as [|[k0 v0] o IH]; simpl; intros N.
  - constructor; [intros []|constructor].
  - inversion N as [|? ? Hk No]; subst.
    destruct (String.eqb k0 k) eqn:E; simpl.
    + apply String.eqb_eq in E; subst k0; constructor; assumption.
    + constructor; [|apply IH, No].
      intros H; apply (keys_set k k0 v o) in H; destruct H as [->|H].
      * rewrite String.eqb_refl in E; discriminate E.
      * exact (Hk H).
Qed.

Lemma usageMap_keys_NoDup (db : DB)
    (branchIdFilter itemIdFilter : option string) :
  NoDup (keys (usageMapOf db branchIdFilter itemIdFilter)).
Proof.
  unfold usageMapOf.
  assert (H : forall txs (usageMap : Obj Q),
             NoDup (keys usageMap) ->
             NoDup (keys (fold_left
                            (usageMapStep branchIdFilter itemIdFilter)
                            txs usageMap))).
  { induction txs as [|t txs IH]; intros usageMap N; simpl; [exact N|].
    apply IH; unfold usageMapStep.
    destruct (String.eqb (t_type t) "use" || String.eqb (t_type t) "wastage");
      [|exact N].
    destruct (filtered_out branchIdFilter (t_branchId t)); [exact N|].
    destruct (filtered_out itemIdFilter (Some (t_itemId t))); [exact N|].
    apply keys_set_NoDup, N. }
  apply H; constructor.
Qed.

Lemma NoDup_snoc {A : Type} (l : list A) (x : A) :
  NoDup l -> ~ In x l -> NoDup (l ++ [x]).
Proof.
  intros N H.
  apply (Permutation_NoDup (Permutation_cons_append l x)).
  constructor; assumption.
Qed.

Lemma historyStep_rowsOf (usageMap : Obj Q) (seen : list string)
    (result : Obj (Obj (list DayQty))) (k : string) :
  plainKey k -> ~ In k seen ->
  rowsOf seen result -> rowsOf (k :: seen) (historyStep usageMap result k).
Proof.
  intros (b' & i' & d' & Hb' & Hi' & Hd' & ->) Hnew Inv.
  rewrite (historyStep_direct usageMap result b' i' d' Hb' Hi' Hd').
  cbv zeta; intros b i o rows Ho Hrows.
  assert (Old : forall o0 rows0,
             obj_get b result = Some o0 -> obj_get i o0 = Some rows0 ->
             NoDup (map dq_day rows0)
             /\ forall e, In e rows0 ->
                          exists d, dq_day e = Some d
                                    /\ In (usageKey (Some b) i d)
                                          (usageKey (Some b') i' d' :: seen)).
  { intros o0 rows0 H1 H2; destruct (Inv b i o0 rows0 H1 H2) as [N E].
    split; [exact N|].
    intros e He; destruct (E e He) as (d & D1 & D2).
    exists d; split; [exact D1|right; exact D2]. }
  destruct (String.eqb_spec b' b) as [->|Nb].
  - rewrite obj_get_set_same in Ho; injection Ho as <-.
    destruct (String.eqb_spec i' i) as [->|Ni].
    + rewrite obj_get_set_same in Hrows; injection Hrows as <-.
      set (rows0 := match obj_get i
                            match obj_get b result with
                            | Some o => o
                            | None => []
                            end with
                    | Some a => a
                    | None => []
                    end).
      assert (R0 : NoDup (map dq_day rows0)
                   /\ forall e, In e rows0 ->
                                exists d, dq_day e = Some d
                                          /\ In (usageKey (Some b) i d) seen).
      { unfold rows0.
        destruct (obj_get b result) as [o0|] eqn:E1;
          [|simpl; split; [constructor|intros e []]].
        destruct (obj_get i o0) as [a|] eqn:E2;
          [|split; [constructor|intros e []]].
        apply (Inv b i o0 a E1 E2). }
      destruct R0 as [N0 E0]; split.
      * rewrite map_app; simpl.
        apply NoDup_snoc; [exact N0|].
        intros H; apply in_map_iff in H; destruct H as (e & De & He).
        destruct (E0 e He) as (d & D1 & D2).
        rewrite De in D1; injection D1 as <-.
        exact (Hnew D2).
      * intros e He; apply in_app_or in He; destruct He as [He|[<-|[]]].
        -- destruct (E0 e He) as (d & D1 & D2).
           exists d; split; [exact D1|right; exact D2].
        -- exists d'; split; [reflexivity|left; reflexivity].
    + rewrite (obj_get_set_other i' i) in Hrows by exact Ni.
      destruct (obj_get b result) as [o0|] eqn:E1; [|discriminate Hrows].
      apply (Old o0 rows eq_refl Hrows).
  - rewrite (obj_get_set_other b' b) in Ho by exact Nb.
    apply (Old o rows Ho Hrows).
Qed.

Lemma fold_historyStep_rowsOf (usageMap : Obj Q) (ks : list string) :
  Forall plainKey ks -> NoDup ks ->
  forall (seen : list string) (result : Obj (Obj (list DayQty))),
    (forall k, In k ks -> ~ In k seen) ->
    rowsOf seen result ->
    rowsOf (rev ks ++ seen) (fold_left (historyStep usageMap) ks result).
Proof.
  intros F; induction F as [|k ks Hk _ IH]; intros N seen result Hs Inv;
    simpl; [exact Inv|].
  inversion N as [|? ? Hnk Nks]; subst.
  rewrite <- app_assoc; simpl.
  apply (IH Nks).
  - intros k' Hk' [<-|H]; [exact (Hnk Hk')|].
    exact (Hs k' (or_intror Hk') H).
  - apply historyStep_rowsOf;
      [exact Hk|apply Hs; left; reflexivity|exact Inv].
Qed.

(** In the history every branch and item has at most one row per day, and
    every row carries a day; this for ids and days free of ['|']. *)
Theorem computeUsageHistory_one_row_per_day (db : DB)
    (branchIdFilter itemIdFilter : option string) :
  plainLedger branchIdFilter itemIdFilter (transactions db) ->
  forall (b i : string) (o : Obj (list DayQty)) (rows : list DayQty),
    obj_get b (computeUsageHistory db branchIdFilter itemIdFilter) = Some o ->
    obj_get i o = Some rows ->
    NoDup (map dq_day rows)
    /\ Forall (fun e => dq_day e <> None) rows.
Proof.
  intros PL b i o rows Ho Hrows.
  set (usageMap := usageMapOf db branchIdFilter itemIdFilter).
  assert (K : Forall plainKey (keys usageMap)).
  { apply fold_usageMap_keys; [|constructor].
    intros t Ht C; destruct (PL t Ht C) as (P1 & P2 & P3).
    exists (template (t_branchId t)), (t_itemId t), (Spec.day t).
    repeat split; try assumption; apply plain_no_bar; assumption. }
  assert (Inv : rowsOf (rev (keys usageMap) ++ [])
                  (computeUsageHistory db branchIdFilter itemIdFilter)).
  { apply fold_historyStep_rowsOf.
    - exact K.
    - apply usageMap_keys_NoDup.
    - intros k _ [].
    - intros b0 i0 o0 rows0 H; discriminate H. }
  destruct (Inv b i o rows Ho Hrows) as [N E].
  split; [exact N|].
  apply Forall_forall; intros e He.
  destruct (E e He) as (d & D & _); rewrite D; discriminate.
Qed.

Lemma computeUsageHistory_one_row_per_day_witness :
  exists (o : Obj (list DayQty)) (rows : list DayQty),
    obj_get "b_1" (computeUsageHistory Scenario.scenario3 None None) = Some o
    /\ obj_get "i_veg_tom" o = Some rows
    /\ NoDup (map dq_day rows)
    /\ Forall (fun e => dq_day e <> None) rows.
Proof.
  assert (PL : plainLedger None None (transactions Scenario.scenario3)).
  { intros t Ht C; simpl in Ht.
    destruct Ht as [<-|[<-|[<-|[]]]]; repeat split; reflexivity. }
  eexists; eexists.
  split; [reflexivity|split; [reflexivity|]].
  apply (computeUsageHistory_one_row_per_day Scenario.scenario3 None None PL
           "b_1" "i_veg_tom" _ _ eq_refl eq_refl).
Defined.

(** ** Further properties on binary64 *)

(** A transfer from a branch to itself is first added and then
    subtracted: the running total [s] of the branch becomes [(s + q) - q],
    which in binary64 need not be [s], and the total of every other branch
    stays as it is.  After a delivery of 14.245 a transfer of 31 from A to
    A moves the stock of A from 14.25 to 14.24. *)
Theorem self_transfer_binary64 :
  (forall (b b' i : string) (s : float) (t : Binary64.Transaction),
     Binary64.t_type t = "transfer" ->
     Binary64.t_itemId t = i ->
     Binary64.t_branchFrom t = Some b ->
     Binary64.t_branchTo t = Some b ->
     Binary64.stockStep b i s t = (s + Binary64.t_qty t - Binary64.t_qty t)%float
     /\ (b' <> b -> Binary64.stockStep b' i s t = s))
  /\ Binary64.getCurrentStock
       (Binary64.Scenario.ledger [Binary64.Scenario.delivered14])
       "A" "i_veg_tom" = 14.25%float
  /\ Binary64.getCurrentStock
       (Binary64.Scenario.ledger
          [Binary64.Scenario.delivered14; Binary64.Scenario.selfTransfer])
       "A" "i_veg_tom" = 14.24%float.
Proof.
  split; [|split; vm_compute; reflexivity].
  intros b b' i s t T I F U.
  unfold Binary64.stockStep. rewrite T, I, F, U.
  rewrite String.eqb_refl. cbn [negb JS.strict_eq String.eqb Ascii.eqb
    Bool.eqb andb].
  rewrite String.eqb_refl.
  split; [reflexivity|].
  intros N. apply String.eqb_neq in N. rewrite String.eqb_sym in N.
  rewrite N. reflexivity.
Qed.

Lemma self_transfer_binary64_witness :
  Binary64.stockStep "A" "i_veg_tom" 14.245 Binary64.Scenario.selfTransfer
  = (14.245 + 31 - 31)%float
  /\ ("B" <> "A" ->
      Binary64.stockStep "B" "i_veg_tom" 14.245
        Binary64.Scenario.selfTransfer = 14.245%float).
Proof.
  apply (proj1 self_transfer_binary64 "A" "B" "i_veg_tom" 14.245%float
           Binary64.Scenario.selfTransfer);
    reflexivity.
Defined.

(** [suggestedOrderQty] returns 0 or a number above 0, never a number
    below 0 and never NaN, whatever the ledger holds; for an id that is not
    in the item list it returns 0. *)
Theorem suggestedOrderQty_binary64_bounds
    {runtime : DateRuntime} {calendar : Calendar}
    (db : Binary64.DB) (now : Z) (b i : string) :
  let r := Binary64.suggestedOrderQty db now b i in
  (r = 0%float \/ (0 <? r)%float = true)
  /\ (r <? 0)%float = false
  /\ is_nan r = false
  /\ (find (fun x => String.eqb (Binary64.it_id x) i) (Binary64.items db)
      = None -> r = 0%float).
Proof.
  cbv zeta.
  assert (D : Binary64.suggestedOrderQty db now b i = 0%float
              \/ (0 <? Binary64.suggestedOrderQty db now b i)%float = true).
  { unfold Binary64.suggestedOrderQty.
    destruct (find _ (Binary64.items db)); [|left; reflexivity].
    cbv zeta.
    destruct (0 <? Binary64.Math_ceil _)%float eqn:P;
      [right; exact P|left; reflexivity]. }
  split; [exact D|].
  split; [|split].
  - destruct D as [-> | P]; [reflexivity|].
    apply positive_not_negative, P.
  - destruct D as [-> | P]; [reflexivity|].
    apply positive_not_negative, P.
  - intros F. unfold Binary64.suggestedOrderQty. rewrite F. reflexivity.
Qed.

Lemma suggestedOrderQty_binary64_bounds_witness :
  Binary64.suggestedOrderQty (runtime := IsoDate.utc)
    (calendar := Binary64.Utc.calendar)
    Binary64.Scenario.scenario3 Binary64.Scenario.now "b_1" "i_unknown"
  = 0%float.
Proof.
  apply (suggestedOrderQty_binary64_bounds (runtime := IsoDate.utc)
           (calendar := Binary64.Utc.calendar)
           Binary64.Scenario.scenario3 Binary64.Scenario.now
           "b_1" "i_unknown").
  reflexivity.
Defined.

(** [avgUsageForItem] depends only on the qualifying uses, taken in
    ledger order: two ledgers in which these are the same sequence have the
    same average.  Their order matters: uses of 10.3, 6.9 and 12.8 average
    10.000000000000002, and 10.3, 12.8 and 6.9 average 10, which with a
    stock of 5 turns a suggestion of 20 into one of 19. *)
Theorem avgUsageForItem_binary64_order :
  (forall (runtime : DateRuntime) (calendar : Calendar)
          (db db' : Binary64.DB) (now : Z) (b i : string)
          (windowDays : float),
     Binary64.Spec.qualifying b i (Binary64.transactions db)
       windowDays now
     = Binary64.Spec.qualifying b i (Binary64.transactions db')
         windowDays now ->
     Binary64.avgUsageForItem db now b i windowDays
     = Binary64.avgUsageForItem db' now b i windowDays)
  /\ (Binary64.avgUsageForItem (runtime := IsoDate.utc)
        (calendar := Binary64.Utc.calendar)
        (Binary64.Scenario.threeDays 2 35 10.3 6.9 12.8)
        Binary64.Scenario.now "b_1" "i_veg_tom" 30
      = 10.000000000000002%float
      /\ Binary64.avgUsageForItem (runtime := IsoDate.utc)
           (calendar := Binary64.Utc.calendar)
           (Binary64.Scenario.threeDays 2 35 10.3 12.8 6.9)
           Binary64.Scenario.now "b_1" "i_veg_tom" 30
         = 10%float)
  /\ (Binary64.suggestedOrderQty (runtime := IsoDate.utc)
        (calendar := Binary64.Utc.calendar)
        (Binary64.Scenario.threeDays 2 35 10.3 6.9 12.8)
        Binary64.Scenario.now "b_1" "i_veg_tom" = 20%float
      /\ Binary64.suggestedOrderQty (runtime := IsoDate.utc)
           (calendar := Binary64.Utc.calendar)
           (Binary64.Scenario.threeDays 2 35 10.3 12.8 6.9)
           Binary64.Scenario.now "b_1" "i_veg_tom" = 19%float).
Proof.
  split; [|repeat split; vm_compute; reflexivity].
  intros runtime calendar db db' now b i windowDays E.
  rewrite !avgUsageForItem_averageDailyUsage.
  unfold Binary64.Spec.averageDailyUsage, Binary64.Spec.divisor,
    Binary64.Spec.activeDays.
  rewrite E. reflexivity.
Qed.

Lemma avgUsageForItem_binary64_order_witness :
  Binary64.avgUsageForItem (runtime := IsoDate.utc)
    (calendar := Binary64.Utc.calendar)
    Binary64.Scenario.scenario3 Binary64.Scenario.now "b_1" "i_veg_tom" 30
  = Binary64.avgUsageForItem (runtime := IsoDate.utc)
      (calendar := Binary64.Utc.calendar)
      Binary64.Scenario.scenario4 Binary64.Scenario.now "b_1" "i_veg_tom" 30.
Proof.
  apply (proj1 avgUsageForItem_binary64_order
           IsoDate.utc Binary64.Utc.calendar
           Binary64.Scenario.scenario3 Binary64.Scenario.scenario4
           Binary64.Scenario.now "b_1" "i_veg_tom" 30%float).
  vm_compute. reflexivity.
Defined.
